(** * Manufacturing plant simulation: machine, machine-type pool and plant

    A shallow embedding of the simulation core of the repository
    ([Machine.py], [simulation/MachineType.py], [Plant.py] and the sampling
    helpers of [helper_functions.py]) together with the properties of its
    event logs, identifiers, quantities and state flags.

    Conventions of the embedding:
    - Python floats (simulated time, cycle times, yields) are rationals [Q].
      Sums and differences of times are taken exactly; the decrement of the
      remaining processing time, [remaining_time -= elapsed], is the float
      subtraction of the interpreter, a parameter of the model, so that what
      is proved of the remaining time holds under its rounding.
    - Python ints are [Z]; the module-level [itertools.count] counters are the
      next value they will hand out.
    - Objects that are shared by reference (the [Machine] instances owned by
      the plant and listed by the pools) live in a store, [Machines], and are
      named by their index in it.
    - A generator body ([process_order], [run_work_order]) is run against the
      resumptions the SimPy scheduler delivers to it at its [yield] points;
      these are inputs of the model.  [print] calls have no effect on the
      state and are left out. *)

From Stdlib Require Import ZArith QArith Qround Lia Lqa.
From Stdlib Require Import PrimFloat FloatOps Uint63 SpecFloat.
From stdpp Require Import gmap strings list sorting.

(** ** Numbers *)

Module Num.

(** Python's [max(a, b)]: the first argument unless the second is larger. *)
Definition py_max (a b : Q) : Q := if Qlt_le_dec a b then b else a.

(** Python's [min(a, b)]: the first argument unless the second is smaller. *)
Definition py_min (a b : Q) : Q := if Qlt_le_dec b a then b else a.

(** [np.clip(x, lo, hi)] is [minimum(maximum(x, lo), hi)]. *)
Definition np_clip (x lo hi : Q) : Q := py_min (py_max x lo) hi.

(** [round(x, 0)]: nearest whole number, ties to the even one. *)
Definition round0 (x : Q) : Q :=
  let f := Qfloor x in
  match Qcompare (x - inject_Z f) (1 # 2) with
  | Lt => inject_Z f
  | Gt => inject_Z (f + 1)
  | Eq => if Z.even f then inject_Z f else inject_Z (f + 1)
  end.

(** The literal [1e-6]. *)
Definition epsilon : Q := 1 # 1000000.

End Num.

Import Num.

(** ** Event records and the machine object *)

Record ProductionEvent := {
  event_id : Z;
  pe_work_order_id : option string;
  pe_machine_id : Z;
  pe_process_id : Z;
  pe_process_route_id : Z;
  pe_step_number : Z;
  batch_id : Z;
  process_start : Q;
  process_end : Q;
  pe_ideal_cycle_time : Q;
  actual_cycle_time : Q;
  event_status : string }.

Record DowntimeEvent := {
  downtime_id : Z;
  de_work_order_id : option string;
  de_process_id : Z;
  de_process_route_id : Z;
  de_machine_id : Z;
  failure_type : string;
  usage_duration : Q;
  failure_start : Q;
  failure_end : Q }.

Record QualityEvent := {
  quality_id : Z;
  qe_work_order_id : option string;
  qe_machine_id : Z;
  qe_process_id : Z;
  qe_process_route_id : Z;
  qe_step_number : Z;
  qe_batch_id : Z;
  initial_quantity : Z;
  units_approved : Z;
  units_scrapped : Z;
  event_time : Q }.

(** The attributes of a [Machine] instance.  [current_process] holds the
    identity of the SimPy process serving the machine; the three injected
    generators are shared by every machine and live in the world below. *)
Record Machine := {
  machine_id : Z;
  machine_type : string;
  ideal_cycle_time : Q;
  is_operational : bool;
  current_work_order : option string;
  production_log : list ProductionEvent;
  downtime_log : list DowntimeEvent;
  quality_log : list QualityEvent;
  current_process : option nat;
  start_quantity : Z;
  end_quantity : Z;
  is_busy : bool }.

(** [Machine.__init__]. *)
Definition Machine_init (mid : Z) (mtype : string) (ideal : Q)
    (work_order : option string) : Machine :=
  {| machine_id := mid; machine_type := mtype; ideal_cycle_time := ideal;
     is_operational := true; current_work_order := work_order;
     production_log := []; downtime_log := []; quality_log := [];
     current_process := None; start_quantity := 0; end_quantity := 0;
     is_busy := false |}.

(** Attribute assignments. *)
Definition set_is_operational (b : bool) (m : Machine) : Machine :=
  {| machine_id := machine_id m; machine_type := machine_type m;
     ideal_cycle_time := ideal_cycle_time m; is_operational := b;
     current_work_order := current_work_order m;
     production_log := production_log m; downtime_log := downtime_log m;
     quality_log := quality_log m; current_process := current_process m;
     start_quantity := start_quantity m; end_quantity := end_quantity m;
     is_busy := is_busy m |}.

Definition set_current_work_order (o : option string) (m : Machine) : Machine :=
  {| machine_id := machine_id m; machine_type := machine_type m;
     ideal_cycle_time := ideal_cycle_time m; is_operational := is_operational m;
     current_work_order := o;
     production_log := production_log m; downtime_log := downtime_log m;
     quality_log := quality_log m; current_process := current_process m;
     start_quantity := start_quantity m; end_quantity := end_quantity m;
     is_busy := is_busy m |}.

Definition set_production_log (l : list ProductionEvent) (m : Machine) : Machine :=
  {| machine_id := machine_id m; machine_type := machine_type m;
     ideal_cycle_time := ideal_cycle_time m; is_operational := is_operational m;
     current_work_order := current_work_order m;
     production_log := l; downtime_log := downtime_log m;
     quality_log := quality_log m; current_process := current_process m;
     start_quantity := start_quantity m; end_quantity := end_quantity m;
     is_busy := is_busy m |}.

Definition set_downtime_log (l : list DowntimeEvent) (m : Machine) : Machine :=
  {| machine_id := machine_id m; machine_type := machine_type m;
     ideal_cycle_time := ideal_cycle_time m; is_operational := is_operational m;
     current_work_order := current_work_order m;
     production_log := production_log m; downtime_log := l;
     quality_log := quality_log m; current_process := current_process m;
     start_quantity := start_quantity m; end_quantity := end_quantity m;
     is_busy := is_busy m |}.

Definition set_quality_log (l : list QualityEvent) (m : Machine) : Machine :=
  {| machine_id := machine_id m; machine_type := machine_type m;
     ideal_cycle_time := ideal_cycle_time m; is_operational := is_operational m;
     current_work_order := current_work_order m;
     production_log := production_log m; downtime_log := downtime_log m;
     quality_log := l; current_process := current_process m;
     start_quantity := start_quantity m; end_quantity := end_quantity m;
     is_busy := is_busy m |}.

Definition set_current_process (p : option nat) (m : Machine) : Machine :=
  {| machine_id := machine_id m; machine_type := machine_type m;
     ideal_cycle_time := ideal_cycle_time m; is_operational := is_operational m;
     current_work_order := current_work_order m;
     production_log := production_log m; downtime_log := downtime_log m;
     quality_log := quality_log m; current_process := p;
     start_quantity := start_quantity m; end_quantity := end_quantity m;
     is_busy := is_busy m |}.

Definition set_start_quantity (q : Z) (m : Machine) : Machine :=
  {| machine_id := machine_id m; machine_type := machine_type m;
     ideal_cycle_time := ideal_cycle_time m; is_operational := is_operational m;
     current_work_order := current_work_order m;
     production_log := production_log m; downtime_log := downtime_log m;
     quality_log := quality_log m; current_process := current_process m;
     start_quantity := q; end_quantity := end_quantity m;
     is_busy := is_busy m |}.

Definition set_end_quantity (q : Z) (m : Machine) : Machine :=
  {| machine_id := machine_id m; machine_type := machine_type m;
     ideal_cycle_time := ideal_cycle_time m; is_operational := is_operational m;
     current_work_order := current_work_order m;
     production_log := production_log m; downtime_log := downtime_log m;
     quality_log := quality_log m; current_process := current_process m;
     start_quantity := start_quantity m; end_quantity := q;
     is_busy := is_busy m |}.

Definition set_is_busy (b : bool) (m : Machine) : Machine :=
  {| machine_id := machine_id m; machine_type := machine_type m;
     ideal_cycle_time := ideal_cycle_time m; is_operational := is_operational m;
     current_work_order := current_work_order m;
     production_log := production_log m; downtime_log := downtime_log m;
     quality_log := quality_log m; current_process := current_process m;
     start_quantity := start_quantity m; end_quantity := end_quantity m;
     is_busy := b |}.

(** ** Configuration *)

(** [config["process_noise"]]. *)
Record ProcessNoise := {
  pn_mean_val : Q; pn_var_val : Q; pn_min_val : Q; pn_max_val : Q }.

(** [config["repair_behavior"]]. *)
Record RepairBehavior := {
  rb_mean_val : Q; rb_var_val : Q; rb_min_bound : Q; rb_max_bound : Q }.

(** [config["quality"]]. *)
Record Quality := { interrupt_penalty : Q; min_yield : Q }.

(** ** Exceptions and outcomes *)

Inductive exn :=
  | AssertionError (msg : string)
  | RuntimeError (msg : string)
  | ValueError (msg : string)
  | ZeroDivisionError
  | UnboundLocalError (name : string)
  | InvalidReference.

Inductive Outcome (A : Type) :=
  | Returned (a : A)
  | Raised (e : exn).
Arguments Returned {A} a.
Arguments Raised {A} e.

(** ** Library primitives

    Sampling is done by numpy [Generator] objects.  Their algorithms are not
    part of the repository: a generator is a state of some type [G] and each
    distribution maps a state and the call's arguments to a variate and the
    next state. *)
Class NumpyGenerator (G : Type) := {
  (** [g.normal(loc, scale)] *)
  normal : G -> Q -> Q -> Q * G;
  (** [g.lognormal(mean=np.log(x), sigma=s)], as a function of [x] and [s] *)
  lognormal_of_log : G -> Q -> Q -> Q * G;
  (** [g.binomial(n, p)] for [0 <= n] and [0 <= p <= 1] *)
  binomial : G -> Z -> Q -> Z * G }.

(** Python's float power [x ** y]. *)
Class FloatPow := float_pow : Q -> Q -> Q.

(** Python's float difference [x - y]: the difference of two binary64
    numbers, rounded to the nearest one. *)
Class FloatSub := float_sub : Q -> Q -> Q.

(** Rounding to nearest is monotone and leaves a float as it is, so that a
    float less a positive float is never above it. *)
Definition float_sub_never_above `{!FloatSub} : Prop :=
  forall x y : Q, (0 < y)%Q -> (float_sub x y <= x)%Q.

(** ** The world: simulated clock, object store, module-level state *)

(** The four module-level counters of [Machine.py]; each field is the value
    the next [next(...)] returns. *)
Record Ids := {
  _event_id_counter : Z;
  _batch_id_counter : Z;
  _downtime_id_counter : Z;
  _quality_id_counter : Z }.

(** The injected [rngs] dictionary. *)
Record Rngs (G : Type) := {
  arrival : G; processing : G; failure : G; quality : G; structure : G }.
Arguments arrival {G} _.
Arguments processing {G} _.
Arguments failure {G} _.
Arguments quality {G} _.
Arguments structure {G} _.

Record World (G : Type) := {
  (** [env.now] *)
  now : Q;
  (** the [Machine] objects, [Plant.Machines]; a machine reference is an
      index of this list *)
  Machines : list Machine;
  ids : Ids;
  (** [local_rng] of [Machine.py], created unseeded at import *)
  local_rng : G;
  (** [local_rng] of [helper_functions.py], created unseeded at import *)
  hf_local_rng : G;
  rngs : Rngs G;
  (** [Plant.work_order_start_times] and [Plant.work_order_end_times] *)
  work_order_start_times : gmap string Q;
  work_order_end_times : gmap string Q }.
Arguments now {G} _.
Arguments Machines {G} _.
Arguments ids {G} _.
Arguments local_rng {G} _.
Arguments hf_local_rng {G} _.
Arguments rngs {G} _.
Arguments work_order_start_times {G} _.
Arguments work_order_end_times {G} _.

Section Model.

Context {G : Type} `{!NumpyGenerator G} `{!FloatPow} `{Fsub : !FloatSub}.

Local Open Scope Q_scope.

Definition set_now (t : Q) (w : World G) : World G :=
  {| now := t; Machines := Machines w; ids := ids w;
     local_rng := local_rng w; hf_local_rng := hf_local_rng w; rngs := rngs w;
     work_order_start_times := work_order_start_times w;
     work_order_end_times := work_order_end_times w |}.

Definition set_Machines (l : list Machine) (w : World G) : World G :=
  {| now := now w; Machines := l; ids := ids w;
     local_rng := local_rng w; hf_local_rng := hf_local_rng w; rngs := rngs w;
     work_order_start_times := work_order_start_times w;
     work_order_end_times := work_order_end_times w |}.

Definition set_ids (i : Ids) (w : World G) : World G :=
  {| now := now w; Machines := Machines w; ids := i;
     local_rng := local_rng w; hf_local_rng := hf_local_rng w; rngs := rngs w;
     work_order_start_times := work_order_start_times w;
     work_order_end_times := work_order_end_times w |}.

Definition set_local_rng (g : G) (w : World G) : World G :=
  {| now := now w; Machines := Machines w; ids := ids w;
     local_rng := g; hf_local_rng := hf_local_rng w; rngs := rngs w;
     work_order_start_times := work_order_start_times w;
     work_order_end_times := work_order_end_times w |}.

Definition set_hf_local_rng (g : G) (w : World G) : World G :=
  {| now := now w; Machines := Machines w; ids := ids w;
     local_rng := local_rng w; hf_local_rng := g; rngs := rngs w;
     work_order_start_times := work_order_start_times w;
     work_order_end_times := work_order_end_times w |}.

Definition set_rngs (r : Rngs G) (w : World G) : World G :=
  {| now := now w; Machines := Machines w; ids := ids w;
     local_rng := local_rng w; hf_local_rng := hf_local_rng w; rngs := r;
     work_order_start_times := work_order_start_times w;
     work_order_end_times := work_order_end_times w |}.

Definition set_work_order_start_times (d : gmap string Q) (w : World G) : World G :=
  {| now := now w; Machines := Machines w; ids := ids w;
     local_rng := local_rng w; hf_local_rng := hf_local_rng w; rngs := rngs w;
     work_order_start_times := d;
     work_order_end_times := work_order_end_times w |}.

Definition set_work_order_end_times (d : gmap string Q) (w : World G) : World G :=
  {| now := now w; Machines := Machines w; ids := ids w;
     local_rng := local_rng w; hf_local_rng := hf_local_rng w; rngs := rngs w;
     work_order_start_times := work_order_start_times w;
     work_order_end_times := d |}.

Definition set_quality_rng (g : G) (r : Rngs G) : Rngs G :=
  {| arrival := arrival r; processing := processing r; failure := failure r;
     quality := g; structure := structure r |}.

(** ** Computations: state that survives an exception *)

Definition M (A : Type) : Type := World G -> Outcome A * World G.

Definition ret {A} (a : A) : M A := fun w => (Returned a, w).

Definition bind {A B} (c : M A) (k : A -> M B) : M B :=
  fun w =>
    match c w with
    | (Returned a, w') => k a w'
    | (Raised e, w') => (Raised e, w')
    end.

Definition raise {A} (e : exn) : M A := fun w => (Raised e, w).

Notation "x <- c1 ;; c2" := (bind c1 (fun x => c2))
  (at level 100, c1 at next level, right associativity).
Notation "c1 ;; c2" := (bind c1 (fun _ => c2))
  (at level 100, right associativity).

(** A relation between the world before and after that every outcome of a
    computation respects, exceptions included. *)
Definition respects {A} (R : relation (World G)) (c : M A) : Prop :=
  forall w o w', c w = (o, w') -> R w w'.

(** [assert cond, msg] *)
Definition py_assert (cond : bool) (msg : string) : M unit :=
  if cond then ret tt else raise (AssertionError msg).

(** Reading the object a reference names. *)
Definition getattr (self : nat) : M Machine :=
  fun w =>
    match Machines w !! self with
    | Some m => (Returned m, w)
    | None => (Raised InvalidReference, w)
    end.

(** [self.attr = v]: the object is updated in the store, so that every
    holder of the reference sees the new value. *)
Definition setattr (self : nat) (f : Machine -> Machine) : M unit :=
  fun w => (Returned tt, set_Machines (alter f self (Machines w)) w).

(** [env.now] *)
Definition env_now : M Q := fun w => (Returned (now w), w).

(** [yield env.timeout(delay)] that runs to its expiry: SimPy refuses a
    negative delay with a [ValueError]; otherwise the process resumes when
    the clock has advanced by [delay]. *)
Definition timeout (delay : Q) : M unit :=
  fun w =>
    if Qlt_le_dec delay 0 then (Raised (ValueError "Negative delay"), w)
    else (Returned tt, set_now (now w + delay) w).

(** A suspension that is cut short: the process is resumed by an interrupt
    once the clock has advanced by [after]. *)
Definition interrupted (after : Q) : M unit :=
  fun w => (Returned tt, set_now (now w + after) w).

(** [yield type_req]: the process resumes when the resource grants the
    request, once the clock has advanced by [wait].  (The capacity
    accounting of the resource is the scheduler's and is not modelled.) *)
Definition granted (wait : Q) : M unit :=
  fun w => (Returned tt, set_now (now w + wait) w).

(** [next(_event_id_counter)] and its three siblings. *)
Definition next_event_id : M Z :=
  fun w =>
    let i := ids w in
    (Returned (_event_id_counter i),
     set_ids {| _event_id_counter := _event_id_counter i + 1;
                _batch_id_counter := _batch_id_counter i;
                _downtime_id_counter := _downtime_id_counter i;
                _quality_id_counter := _quality_id_counter i |} w).

Definition next_batch_id : M Z :=
  fun w =>
    let i := ids w in
    (Returned (_batch_id_counter i),
     set_ids {| _event_id_counter := _event_id_counter i;
                _batch_id_counter := _batch_id_counter i + 1;
                _downtime_id_counter := _downtime_id_counter i;
                _quality_id_counter := _quality_id_counter i |} w).

Definition next_downtime_id : M Z :=
  fun w =>
    let i := ids w in
    (Returned (_downtime_id_counter i),
     set_ids {| _event_id_counter := _event_id_counter i;
                _batch_id_counter := _batch_id_counter i;
                _downtime_id_counter := _downtime_id_counter i + 1;
                _quality_id_counter := _quality_id_counter i |} w).

Definition next_quality_id : M Z :=
  fun w =>
    let i := ids w in
    (Returned (_quality_id_counter i),
     set_ids {| _event_id_counter := _event_id_counter i;
                _batch_id_counter := _batch_id_counter i;
                _downtime_id_counter := _downtime_id_counter i;
                _quality_id_counter := _quality_id_counter i + 1 |} w).

(** [local_rng.normal(loc, scale)] on the module-level generator of
    [Machine.py]. *)
Definition local_rng_normal (loc scale : Q) : M Q :=
  fun w =>
    let '(x, g) := normal (local_rng w) loc scale in
    (Returned x, set_local_rng g w).

(** [local_rng.lognormal(mean=np.log(x), sigma=s)] on the module-level
    generator of [helper_functions.py]. *)
Definition hf_local_rng_lognormal (x s : Q) : M Q :=
  fun w =>
    let '(v, g) := lognormal_of_log (hf_local_rng w) x s in
    (Returned v, set_hf_local_rng g w).

(** [self.quality_rng.binomial(n, p)] on the injected [rngs['quality']];
    numpy raises [ValueError] for [n < 0] and for [p] outside [0, 1]. *)
Definition quality_rng_binomial (n : Z) (p : Q) : M Z :=
  fun w =>
    if (n <? 0)%Z then (Raised (ValueError "n < 0"), w)
    else if Qlt_le_dec p 0 then (Raised (ValueError "p < 0, p > 1 or p is NaN"), w)
    else if Qlt_le_dec 1 p then (Raised (ValueError "p < 0, p > 1 or p is NaN"), w)
    else
      let '(k, g) := binomial (quality (rngs w)) n p in
      (Returned k, set_rngs (set_quality_rng g (rngs w)) w).

(** ** [Machine] methods *)

(** [Machine.vary_cycle_time] *)
Definition vary_cycle_time (self : nat) (process_noise : ProcessNoise) : M Q :=
  m <- getattr self ;;
  let nominal := ideal_cycle_time m in
  let mean_val := pn_mean_val process_noise in
  let var_val := pn_var_val process_noise in
  let min_val := pn_min_val process_noise in
  let max_val := pn_max_val process_noise in
  x <- local_rng_normal mean_val var_val ;;
  let noise := np_clip x min_val max_val in
  let actual_cycle_time := nominal * noise in
  ret (round0 actual_cycle_time).

(** [helper_functions.vary_repair_time] *)
Definition vary_repair_time (repair_behavior : RepairBehavior) : M Q :=
  let mean_val := rb_mean_val repair_behavior in
  let var_val := rb_var_val repair_behavior in
  let min_bound := rb_min_bound repair_behavior in
  let max_bound := rb_max_bound repair_behavior in
  x <- hf_local_rng_lognormal (mean_val * 60) var_val ;;
  let repair_time := np_clip x min_bound max_bound in
  ret (round0 repair_time).

(** [Machine.log_production_event] *)
Definition log_production_event (self : nat)
    (process_id process_route_id step_number : Z)
    (process_start process_end actual_cycle_time : Q)
    (event_status : string) : M Z :=
  event_id <- next_event_id ;;
  batch_id <- next_batch_id ;;
  m <- getattr self ;;
  setattr self (set_production_log (production_log m ++
    [ {| event_id := event_id;
         pe_work_order_id := current_work_order m;
         pe_machine_id := machine_id m;
         pe_process_id := process_id;
         pe_process_route_id := process_route_id;
         pe_step_number := step_number;
         batch_id := batch_id;
         process_start := process_start;
         process_end := process_end;
         pe_ideal_cycle_time := ideal_cycle_time m;
         actual_cycle_time := actual_cycle_time;
         event_status := event_status |} ])) ;;
  ret batch_id.

(** [Machine.log_downtime_event] *)
Definition log_downtime_event (self : nat)
    (process_id process_route_id : Z) (failure_type : string)
    (usage_duration failure_start failure_end : Q) : M unit :=
  downtime_id <- next_downtime_id ;;
  m <- getattr self ;;
  setattr self (set_downtime_log (downtime_log m ++
    [ {| downtime_id := downtime_id;
         de_work_order_id := current_work_order m;
         de_process_id := process_id;
         de_process_route_id := process_route_id;
         de_machine_id := machine_id m;
         failure_type := failure_type;
         usage_duration := usage_duration;
         failure_start := failure_start;
         failure_end := failure_end |} ])).

(** [Machine.log_quality_event] *)
Definition log_quality_event (self : nat)
    (process_id process_route_id step_number batch_id : Z)
    (initial_quantity good_units scrap_units : Z) : M unit :=
  quality_id <- next_quality_id ;;
  m <- getattr self ;;
  t <- env_now ;;
  setattr self (set_quality_log (quality_log m ++
    [ {| quality_id := quality_id;
         qe_work_order_id := current_work_order m;
         qe_machine_id := machine_id m;
         qe_process_id := process_id;
         qe_process_route_id := process_route_id;
         qe_step_number := step_number;
         qe_batch_id := batch_id;
         initial_quantity := initial_quantity;
         units_approved := good_units;
         units_scrapped := scrap_units;
         event_time := t |} ])).

(** ** [Machine.process_order] *)

(** The local variables of the processing loop. *)
Record LoopState := {
  remaining_time : Q;
  counter : Z;
  loop_guard : Z }.

(** What the scheduler delivers to [yield env.timeout(remaining_time)]:
    either the timer expires, or the failure generator interrupts the process
    with a cause once the clock has advanced by [after]. *)
Inductive Resumption :=
  | TimerExpired
  | Interrupt (cause : string) (after : Q).

(** The [except simpy.Interrupt as downtime:] block. *)
Definition handle_interrupt (self : nat) (process_id process_route_id : Z)
    (repair_behavior : RepairBehavior) (segment_start : Q) (cause : string)
    (st : LoopState) : M LoopState :=
  setattr self (set_is_operational false) ;;
  let counter' := (counter st + 1)%Z in
  failure_start <- env_now ;;
  let failure_type := cause in
  t <- env_now ;;
  let elapsed := t - segment_start in
  let elapsed :=
    if Qlt_le_dec 0 elapsed then elapsed
    else py_min epsilon (remaining_time st) in
  let remaining := float_sub (remaining_time st) elapsed in
  let remaining := if Qlt_le_dec remaining 0 then 0 else remaining in
  repair_time <- vary_repair_time repair_behavior ;;
  timeout repair_time ;;
  failure_end <- env_now ;;
  log_downtime_event self process_id process_route_id failure_type elapsed
    failure_start failure_end ;;
  setattr self (set_is_operational true) ;;
  ret {| remaining_time := remaining; counter := counter';
         loop_guard := loop_guard st |}.

(** The [try] statement of one loop iteration, for the resumption [r]. *)
Definition try_segment (self : nat) (process_id process_route_id : Z)
    (repair_behavior : RepairBehavior) (r : Resumption) (st : LoopState)
    : M LoopState :=
  segment_start <- env_now ;;
  match r with
  | TimerExpired =>
      timeout (remaining_time st) ;;
      ret {| remaining_time := 0; counter := counter st;
             loop_guard := loop_guard st |}
  | Interrupt cause after =>
      interrupted after ;;
      handle_interrupt self process_id process_route_id repair_behavior
        segment_start cause st
  end.

(** [while remaining_time > 0: ...].  [sched] lists the resumptions of the
    successive processing timeouts; once it is used up no further failure
    fires and the timer expires, which ends the loop. *)
Fixpoint processing_loop (self : nat) (process_id process_route_id : Z)
    (repair_behavior : RepairBehavior) (actual_cycle_time : Q)
    (sched : list Resumption) (st : LoopState) : M LoopState :=
  if Qlt_le_dec 0 (remaining_time st) then
    py_assert (Qle_bool (remaining_time st) actual_cycle_time)
      "Remaining time increased unexpectedly" ;;
    let st := {| remaining_time := remaining_time st; counter := counter st;
                 loop_guard := (loop_guard st + 1)%Z |} in
    if (1000 <? loop_guard st)%Z then
      ret {| remaining_time := remaining_time st; counter := (-1)%Z;
             loop_guard := loop_guard st |}
    else
      match sched with
      | [] =>
          try_segment self process_id process_route_id repair_behavior
            TimerExpired st
      | r :: sched' =>
          st' <- try_segment self process_id process_route_id repair_behavior
                   r st ;;
          processing_loop self process_id process_route_id repair_behavior
            actual_cycle_time sched' st'
      end
  else ret st.

(** The loop heads an execution of the loop passes through: from a head
    whose test [remaining_time > 0] and whose guard let the body run, one
    [try] statement leads to the next head. *)
Inductive loop_head (self : nat) (process_id process_route_id : Z)
    (repair_behavior : RepairBehavior)
    : LoopState -> World G -> LoopState -> World G -> Prop :=
  | loop_head_first st w :
      loop_head self process_id process_route_id repair_behavior st w st w
  | loop_head_next st w r st1 w1 st' w' :
      0 < remaining_time st ->
      (loop_guard st + 1 <= 1000)%Z ->
      try_segment self process_id process_route_id repair_behavior r
        {| remaining_time := remaining_time st; counter := counter st;
           loop_guard := (loop_guard st + 1)%Z |} w = (Returned st1, w1) ->
      loop_head self process_id process_route_id repair_behavior st1 w1 st' w' ->
      loop_head self process_id process_route_id repair_behavior st w st' w'.

(** The conditional expression that picks [event_status]. *)
Definition status_of_counter (counter : Z) : string :=
  if (0 <? counter)%Z then "interrupted"
  else if (counter <? 0)%Z then "failed" else "completed".

(** [Machine.process_order] up to the processing loop: the re-entrancy
    assertion, the busy flag, the work-order context, the cycle time and the
    handle of the serving process [pid].  The result is
    [(actual_cycle_time, process_start)]. *)
Definition start_processing (self pid : nat) (work_order_id : string)
    (current_quantity : Z) (process_noise : ProcessNoise) : M (Q * Q) :=
  m <- getattr self ;;
  py_assert (bool_decide (current_process m = None))
    "Machine started a new process while still busy" ;;
  setattr self (set_is_busy true) ;;
  setattr self (set_current_work_order (Some work_order_id)) ;;
  setattr self (set_start_quantity current_quantity) ;;
  actual_cycle_time <- vary_cycle_time self process_noise ;;
  py_assert (negb (Qle_bool actual_cycle_time 0)) "Non-positive cycle time" ;;
  setattr self (set_current_process (Some pid)) ;;
  process_start <- env_now ;;
  ret (actual_cycle_time, process_start).

(** [Machine.process_order] after the processing loop: the machine is
    released, the quality outcome is drawn and the two events are logged.
    [st] holds the loop's variables on exit.  (The assertion that both
    timestamps are set cannot fail and is left out.) *)
Definition finish_processing (self : nat) (step_number num_steps : Z)
    (process_id process_route_id : Z) (target_yield : Q) (quality : Quality)
    (actual_cycle_time process_start : Q) (st : LoopState) : M unit :=
  process_end <- env_now ;;
  setattr self (set_current_process None) ;;
  setattr self (set_is_busy false) ;;
  let penalty := inject_Z (counter st) * interrupt_penalty quality in
  distributed_target <-
    (if (num_steps =? 0)%Z then raise ZeroDivisionError
     else ret (float_pow target_yield (1 / inject_Z num_steps))) ;;
  let step_yield := py_max (min_yield quality) (distributed_target - penalty) in
  m <- getattr self ;;
  good_units <- quality_rng_binomial (start_quantity m) step_yield ;;
  m <- getattr self ;;
  let scrap_units := (start_quantity m - good_units)%Z in
  setattr self (set_end_quantity good_units) ;;
  m <- getattr self ;;
  py_assert (good_units + scrap_units =? start_quantity m)%Z
    "Units accepted and scrapped do not add up to the units provided" ;;
  batch_id <- log_production_event self process_id process_route_id
                step_number process_start process_end actual_cycle_time
                (status_of_counter (counter st)) ;;
  m <- getattr self ;;
  log_quality_event self process_id process_route_id step_number batch_id
    (start_quantity m) good_units scrap_units ;;
  setattr self (set_current_work_order None).

(** [Machine.process_order], served by the SimPy process [pid]. *)
Definition process_order (self pid : nat) (sched : list Resumption)
    (work_order_id : string) (step_number num_steps : Z)
    (process_id process_route_id : Z) (target_yield : Q)
    (current_quantity : Z) (process_noise : ProcessNoise)
    (repair_behavior : RepairBehavior) (quality : Quality) : M unit :=
  started <- start_processing self pid work_order_id current_quantity
               process_noise ;;
  let actual_cycle_time := started.1 in
  let process_start := started.2 in
  st <- processing_loop self process_id process_route_id repair_behavior
          actual_cycle_time sched
          {| remaining_time := actual_cycle_time; counter := 0;
             loop_guard := 0 |} ;;
  finish_processing self step_number num_steps process_id process_route_id
    target_yield quality actual_cycle_time process_start st.

(** The iteration ceiling has tripped when the loop is left with
    [loop_guard > 1000]. *)
Definition ceiling_tripped (st : LoopState) : Prop := (1000 < loop_guard st)%Z.

(** ** [MachineType] *)

Record MachineType := {
  mt_machine_type : string;
  (** capacity of the SimPy resource *)
  capacity : Z;
  (** references to the member machines *)
  machines : list nat }.

(** The [for m in self.machines:] scan of [select_machine]. *)
Fixpoint select_machine_scan (ms : list nat) : M nat :=
  match ms with
  | [] => raise (RuntimeError "Capacity granted but no idle machine found")
  | r :: rest =>
      m <- getattr r ;;
      if negb (is_busy m) then
        setattr r (set_is_busy true) ;;
        ret r
      else select_machine_scan rest
  end.

(** [MachineType.select_machine] *)
Definition select_machine (self : MachineType) : M nat :=
  select_machine_scan (machines self).

(** The reference [r] names a machine whose [is_busy] flag is set. *)
Definition busy_in (w : World G) (r : nat) : Prop :=
  exists m, Machines w !! r = Some m /\ is_busy m = true.

(** ** [Plant.run_work_order] *)

(** A row of the work order's route, as [dispatch_work_order] hands it on. *)
Record Process_Step := {
  work_order_id : string;
  step_number : Z;
  process_id : Z;
  process_route_id : Z;
  target_yield_rate : Q;
  step_machine_type : string }.

(** The entries of [config] that [run_work_order] passes on. *)
Record Config := {
  cfg_process_noise : ProcessNoise;
  cfg_repair_behavior : RepairBehavior;
  cfg_quality : Quality }.

(** What the scheduler does to one step of a work order: how long the
    capacity request waits, which process serves [process_order], and the
    resumptions of its processing timeouts. *)
Record StepSchedule := {
  wait : Q;
  pid : nat;
  resumptions : list Resumption }.

(** [if work_order_id not in self.work_order_start_times: ... = self.env.now] *)
Definition record_start_time (work_order_id : string) : M unit :=
  fun w =>
    match work_order_start_times w !! work_order_id with
    | Some _ => (Returned tt, w)
    | None =>
        (Returned tt,
         set_work_order_start_times
           (<[work_order_id := now w]> (work_order_start_times w)) w)
    end.

(** The statements after the [for] loop: the duplicate-completion assertion
    and the assignment of the end time.  [work_order_id] is the loop's last
    binding of that name; it is unbound when the loop body never ran. *)
Definition record_end_time (work_order_id : option string) : M unit :=
  match work_order_id with
  | None => raise (UnboundLocalError "work_order_id")
  | Some work_order_id =>
      fun w =>
        match work_order_end_times w !! work_order_id with
        | Some _ =>
            (Raised (AssertionError "Duplicate completion detected"), w)
        | None =>
            (Returned tt,
             set_work_order_end_times
               (<[work_order_id := now w]> (work_order_end_times w)) w)
        end
  end.

(** The [for idx, step in enumerate(work_order_steps):] loop; the result is
    the binding of [work_order_id] when the loop is left. *)
Fixpoint run_steps (config : Config) (sched : nat -> StepSchedule)
    (machine_pool : list MachineType) (idx : nat)
    (work_order_steps : list Process_Step) (current_quantity : Z)
    (bound : option string) : M (option string) :=
  match work_order_steps with
  | [] => ret bound
  | step :: rest =>
      match machine_pool !! idx with
      | None => raise (AssertionError "Step index out of range for machine pool")
      | Some pool =>
          let num_steps := Z.of_nat (length machine_pool) in
          record_start_time (work_order_id step) ;;
          granted (wait (sched idx)) ;;
          machine <- select_machine pool ;;
          setattr machine (set_start_quantity current_quantity) ;;
          process_order machine (pid (sched idx)) (resumptions (sched idx))
            (work_order_id step) (step_number step) num_steps
            (process_id step) (process_route_id step)
            (target_yield_rate step) current_quantity
            (cfg_process_noise config) (cfg_repair_behavior config)
            (cfg_quality config) ;;
          m <- getattr machine ;;
          let current_quantity := end_quantity m in
          setattr machine (set_start_quantity 0) ;;
          setattr machine (set_end_quantity 0) ;;
          run_steps config sched machine_pool (S idx) rest current_quantity
            (Some (work_order_id step))
      end
  end.

(** [Plant.run_work_order] *)
Definition run_work_order (config : Config) (sched : nat -> StepSchedule)
    (work_order_steps : list Process_Step) (machine_pool : list MachineType)
    (planned_quantity : Z) : M unit :=
  let current_quantity := planned_quantity in
  bound <- run_steps config sched machine_pool 0 work_order_steps
             current_quantity None ;;
  record_end_time bound.

(** ** Relations between the world before and after a computation *)

(** The attribute (or tuple of attributes) [proj] of the machine [self] is
    what it was. *)
Definition kept_at {A} (proj : Machine -> A) (self : nat) : relation (World G) :=
  fun w w' =>
    forall m, Machines w !! self = Some m ->
      exists m', Machines w' !! self = Some m' /\ proj m' = proj m.

(** Every machine other than [self] is what it was. *)
Definition same_elsewhere (self : nat) : relation (World G) :=
  fun w w' => forall r, r <> self -> Machines w' !! r = Machines w !! r.

(** Every start time on record is still on record, unchanged. *)
Definition start_times_kept : relation (World G) :=
  fun w w' =>
    forall id t, work_order_start_times w !! id = Some t ->
                 work_order_start_times w' !! id = Some t.

(** The dictionary of end times is what it was. *)
Definition end_times_kept : relation (World G) :=
  fun w w' => work_order_end_times w' = work_order_end_times w.

(** The injected generators have not been drawn from. *)
Definition rngs_kept : relation (World G) :=
  fun w w' => rngs w' = rngs w.

(** The simulated clock has not gone back. *)
Definition clock_advances : relation (World G) :=
  fun w w' => now w <= now w'.

(** The attributes of a machine that a repair cycle leaves alone: all but
    [is_operational] and [downtime_log]. *)
Definition outside_repair (m : Machine) :=
  (machine_id m, machine_type m, ideal_cycle_time m, current_work_order m,
   production_log m, quality_log m, current_process m, start_quantity m,
   end_quantity m, is_busy m).

(** The attributes that [start_processing] leaves alone. *)
Definition outside_start (m : Machine) :=
  (machine_id m, machine_type m, ideal_cycle_time m, is_operational m,
   production_log m, downtime_log m, quality_log m, end_quantity m).

(** A resumption the scheduler can deliver: an interrupt never arrives
    before the suspension it cuts short began. *)
Definition resumption_wf (r : Resumption) : Prop :=
  match r with
  | TimerExpired => True
  | Interrupt _ after => 0 <= after
  end.

(** ** The logs of a run *)

(** [Plant.collect_results] gathers the logs machine by machine. *)
Definition agg_production_logs (w : World G) : list ProductionEvent :=
  flat_map production_log (Machines w).

Definition agg_downtime_logs (w : World G) : list DowntimeEvent :=
  flat_map downtime_log (Machines w).

Definition agg_quality_logs (w : World G) : list QualityEvent :=
  flat_map quality_log (Machines w).

(** A call of one of the three logging methods on some machine. *)
Inductive LogCall :=
  | ProductionCall (self : nat) (process_id process_route_id step_number : Z)
      (process_start process_end actual_cycle_time : Q) (event_status : string)
  | DowntimeCall (self : nat) (process_id process_route_id : Z)
      (failure_type : string) (usage_duration failure_start failure_end : Q)
  | QualityCall (self : nat)
      (process_id process_route_id step_number batch_id : Z)
      (initial_quantity good_units scrap_units : Z).

Definition log_call (c : LogCall) : M unit :=
  match c with
  | ProductionCall self process_id process_route_id step_number
      process_start process_end actual_cycle_time event_status =>
      log_production_event self process_id process_route_id step_number
        process_start process_end actual_cycle_time event_status ;;
      ret tt
  | DowntimeCall self process_id process_route_id failure_type
      usage_duration failure_start failure_end =>
      log_downtime_event self process_id process_route_id failure_type
        usage_duration failure_start failure_end
  | QualityCall self process_id process_route_id step_number batch_id
      initial_quantity good_units scrap_units =>
      log_quality_event self process_id process_route_id step_number batch_id
        initial_quantity good_units scrap_units
  end.

(** What a run is made of, as far as the logs are concerned: single
    logging calls, in whatever order the scheduler interleaves the processes
    they come from, whole executions of [process_order], and whole
    executions of [run_work_order]. *)
Inductive Activity :=
  | Logging (c : LogCall)
  | Processing (self pid : nat) (sched : list Resumption)
      (work_order_id : string) (step_number num_steps : Z)
      (process_id process_route_id : Z) (target_yield : Q)
      (current_quantity : Z) (process_noise : ProcessNoise)
      (repair_behavior : RepairBehavior) (quality : Quality)
  | WorkOrder (config : Config) (sched : nat -> StepSchedule)
      (work_order_steps : list Process_Step)
      (machine_pool : list MachineType) (planned_quantity : Z).

Definition activity (a : Activity) : M unit :=
  match a with
  | Logging c => log_call c
  | Processing self pid sched work_order_id step_number num_steps
      process_id process_route_id target_yield current_quantity
      process_noise repair_behavior quality =>
      process_order self pid sched work_order_id step_number num_steps
        process_id process_route_id target_yield current_quantity
        process_noise repair_behavior quality
  | WorkOrder config sched work_order_steps machine_pool planned_quantity =>
      run_work_order config sched work_order_steps machine_pool
        planned_quantity
  end.

(** Activities one after the other; an exception ends the run and leaves
    the world as it is at that point. *)
Fixpoint activities (l : list Activity) : M unit :=
  match l with
  | [] => ret tt
  | a :: l' => activity a ;; activities l'
  end.

(** The machines of a run that has not logged anything yet. *)
Definition logs_empty (w : World G) : Prop :=
  Forall (fun m => production_log m = [] /\ downtime_log m = [] /\
                   quality_log m = []) (Machines w).

(** Every identifier on record is below the counter it was drawn from. *)
Definition ids_fresh (w : World G) : Prop :=
  Forall (fun e => (event_id e < _event_id_counter (ids w))%Z)
    (agg_production_logs w) /\
  Forall (fun e => (batch_id e < _batch_id_counter (ids w))%Z)
    (agg_production_logs w) /\
  Forall (fun e => (downtime_id e < _downtime_id_counter (ids w))%Z)
    (agg_downtime_logs w) /\
  Forall (fun e => (quality_id e < _quality_id_counter (ids w))%Z)
    (agg_quality_logs w).

(** No two records of one kind, on whichever machines, share an
    identifier. *)
Definition ids_unique (w : World G) : Prop :=
  NoDup (map event_id (agg_production_logs w)) /\
  NoDup (map batch_id (agg_production_logs w)) /\
  NoDup (map downtime_id (agg_downtime_logs w)) /\
  NoDup (map quality_id (agg_quality_logs w)).

(** In every log the identifiers increase strictly from each record to the
    ones appended after it. *)
Definition logs_increasing (w : World G) : Prop :=
  Forall (fun m => StronglySorted Z.lt (map event_id (production_log m)))
    (Machines w) /\
  Forall (fun m => StronglySorted Z.lt (map batch_id (production_log m)))
    (Machines w) /\
  Forall (fun m => StronglySorted Z.lt (map downtime_id (downtime_log m)))
    (Machines w) /\
  Forall (fun m => StronglySorted Z.lt (map quality_id (quality_log m)))
    (Machines w).

(** Since [w] the counters have only gone up, and every record of [w'] is
    either a record of [w] or carries an identifier drawn since. *)
Definition drawn_since (w w' : World G) : Prop :=
  ((_event_id_counter (ids w) <= _event_id_counter (ids w'))%Z /\
   forall e, e ∈ agg_production_logs w' ->
     e ∈ agg_production_logs w \/ (_event_id_counter (ids w) <= event_id e)%Z) /\
  ((_batch_id_counter (ids w) <= _batch_id_counter (ids w'))%Z /\
   forall e, e ∈ agg_production_logs w' ->
     e ∈ agg_production_logs w \/ (_batch_id_counter (ids w) <= batch_id e)%Z) /\
  ((_downtime_id_counter (ids w) <= _downtime_id_counter (ids w'))%Z /\
   forall e, e ∈ agg_downtime_logs w' ->
     e ∈ agg_downtime_logs w \/
     (_downtime_id_counter (ids w) <= downtime_id e)%Z) /\
  ((_quality_id_counter (ids w) <= _quality_id_counter (ids w'))%Z /\
   forall e, e ∈ agg_quality_logs w' ->
     e ∈ agg_quality_logs w \/
     (_quality_id_counter (ids w) <= quality_id e)%Z).

(** The three properties of the identifiers carry over from [w] to [w'],
    and what [w'] has more was drawn since. *)
Definition ids_kept : relation (World G) :=
  fun w w' =>
    ids_fresh w -> ids_unique w -> logs_increasing w ->
    ids_fresh w' /\ ids_unique w' /\ logs_increasing w' /\ drawn_since w w'.

(** The three logs of a machine. *)
Definition logs_of (m : Machine) :=
  (production_log m, downtime_log m, quality_log m).

(** Every record of [w2] that [w1] does not have yet carries a larger
    identifier than every record of its kind in [w1]. *)
Definition created_later (w1 w2 : World G) : Prop :=
  (forall e2, e2 ∈ agg_production_logs w2 ->
     e2 ∈ agg_production_logs w1 \/
     forall e1, e1 ∈ agg_production_logs w1 ->
       (event_id e1 < event_id e2)%Z) /\
  (forall e2, e2 ∈ agg_production_logs w2 ->
     e2 ∈ agg_production_logs w1 \/
     forall e1, e1 ∈ agg_production_logs w1 ->
       (batch_id e1 < batch_id e2)%Z) /\
  (forall e2, e2 ∈ agg_downtime_logs w2 ->
     e2 ∈ agg_downtime_logs w1 \/
     forall e1, e1 ∈ agg_downtime_logs w1 ->
       (downtime_id e1 < downtime_id e2)%Z) /\
  (forall e2, e2 ∈ agg_quality_logs w2 ->
     e2 ∈ agg_quality_logs w1 \/
     forall e1, e1 ∈ agg_quality_logs w1 ->
       (quality_id e1 < quality_id e2)%Z).

End Model.

(** ** [Plant.__init__] *)

(** [config['run_specs']]; an absent entry of the prompt is [None]. *)
Record RunSpecs := {
  run_mode : string;
  num_machines : Z;
  num_products : Z;
  num_work_orders : option Z;
  wip_limit : option Z;
  wip_poll_interval : option Z;
  sim_horizon_days : option Q }.

Inductive Warning :=
  | RuntimeWarning (msg : string).

(** The attributes of a [Plant] that its constructor derives from the
    configuration.  The lists and dictionaries it creates empty
    ([Machines], [work_order_start_times], [work_order_end_times]) are the
    corresponding fields of the world. *)
Record Plant := {
  plant_run_specs : RunSpecs;
  plant_num_work_orders : option Z;
  plant_num_machines : Z;
  plant_num_products : Z;
  work_order_counter : Z }.

(** [Plant.__init__]: the outcome and the warnings issued on the way. *)
Definition Plant_init (run_specs : RunSpecs) : Outcome Plant * list Warning :=
  let build (n : option Z) :=
    {| plant_run_specs := run_specs;
       plant_num_work_orders := n;
       plant_num_machines := num_machines run_specs;
       plant_num_products := num_products run_specs;
       work_order_counter := 0 |} in
  let num_work_orders :=
    match num_work_orders run_specs with
    | None => None
    | Some 0%Z => None
    | Some n => Some n
    end in
  if String.eqb (run_mode run_specs) "volume" then
    match num_work_orders with
    | None =>
        (Raised (ValueError "num_work_orders required for volume-driven run"),
         [])
    | Some n => (Returned (build (Some n)), [])
    end
  else if String.eqb (run_mode run_specs) "time" then
    match num_work_orders with
    | Some _ =>
        (Returned (build (Some 1%Z)),
         [RuntimeWarning "num_work_orders ignored in time-driven mode"])
    | None => (Returned (build (Some 1%Z)), [])
    end
  else
    (Raised (ValueError "Run mode provided can only be defined as either 'time' or 'volume'"),
     []).

(** The count is missing when it is [None] or [0]. *)
Definition count_missing (n : option Z) : Prop := n = None \/ n = Some 0%Z.

(** ** A scripted generator and a small plant

    Concrete inputs on which the definitions above are run. *)

Module Scripted.

Local Open Scope Q_scope.

(** A generator that hands out prepared variates: its state is the list of
    the variates still to come ([0] once the list is used up). *)
Definition Gen : Type := list Q.

Definition draw (g : Gen) : Q * Gen :=
  match g with
  | [] => (0, [])
  | z :: g' => (z, g')
  end.

(** [normal] shifts and scales the prepared standard variate, [lognormal]
    scales the median by the prepared variate plus one, and [binomial]
    returns the whole part of the expected count. *)
#[export] Instance scripted_generator : NumpyGenerator Gen := {|
  normal g loc scale := let '(z, g') := draw g in (loc + scale * z, g');
  lognormal_of_log g x s := let '(z, g') := draw g in (x * (1 + z), g');
  binomial g n p := (Qfloor (inject_Z n * p), g) |}.

(** The float power at the exponent a one-step route asks for:
    [x ** 1 = x]. *)
#[export] Instance pow_one_step : FloatPow := fun x _ => x.

(** The difference without rounding, as it is between the whole numbers of
    seconds of the examples. *)
#[export] Instance exact_sub : FloatSub := Qminus.

(** The preset of [run_simulation.py]. *)
Definition process_noise : ProcessNoise :=
  {| pn_mean_val := 1; pn_var_val := 1 # 10;
     pn_min_val := 85 # 100; pn_max_val := 120 # 100 |}.

Definition repair_behavior : RepairBehavior :=
  {| rb_mean_val := 30; rb_var_val := 6 # 10;
     rb_min_bound := 300; rb_max_bound := 86400 |}.

Definition quality_config : Quality :=
  {| interrupt_penalty := 2 # 100; min_yield := 85 # 100 |}.

Definition config : Config :=
  {| cfg_process_noise := process_noise;
     cfg_repair_behavior := repair_behavior;
     cfg_quality := quality_config |}.

(** The injected streams of a seeded run. *)
Definition seeded_rngs : Rngs Gen :=
  {| arrival := []; processing := []; failure := []; quality := [];
     structure := [] |}.

(** A plant of two machines of one type at the start of a run, with the
    states [g] and [g_hf] of the module-level generators of [Machine.py]
    and [helper_functions.py]. *)
Definition world_with (g g_hf : Gen) : World Gen :=
  {| now := 0;
     Machines := [ Machine_init 11 "Etcher" 1000 None;
                   Machine_init 12 "Etcher" 1000 None ];
     ids := {| _event_id_counter := 1; _batch_id_counter := 1;
               _downtime_id_counter := 1; _quality_id_counter := 1 |};
     local_rng := g;
     hf_local_rng := g_hf;
     rngs := seeded_rngs;
     work_order_start_times := ∅;
     work_order_end_times := ∅ |}.

Definition fresh_world (g : Gen) : World Gen := world_with g [].

Definition etchers : MachineType :=
  {| mt_machine_type := "Etcher"; capacity := 2; machines := [0%nat; 1%nat] |}.

(** One step of work order ["WO-251"], 100 units at a target yield of 0.9,
    on the first machine, under the resumptions [sched]. *)
Definition step_run (sched : list Resumption) (w : World Gen)
    : Outcome unit * World Gen :=
  process_order 0 7 sched "WO-251" 1 1 100 200 (9 # 10) 100
    process_noise repair_behavior quality_config w.

(** A failure that fires 400 seconds into the step. *)
Definition one_failure : list Resumption :=
  [Interrupt "Motor Overheating" 400].

(** A thousand failures that fire the instant processing resumes. *)
Definition failure_storm : list Resumption :=
  replicate 1000 (Interrupt "Sensor Misalignment" 0).

(** The processing loop of a step whose cycle time is 1000 seconds. *)
Definition loop_run (sched : list Resumption) (w : World Gen)
    : Outcome LoopState * World Gen :=
  processing_loop 0 100 200 repair_behavior 1000 sched
    {| remaining_time := 1000; counter := 0; loop_guard := 0 |} w.

(** Work order ["WO-251"] with a route of one step. *)
Definition one_step_route : list Process_Step :=
  [ {| work_order_id := "WO-251"; step_number := 1; process_id := 100;
       process_route_id := 200; target_yield_rate := 9 # 10;
       step_machine_type := "Etcher" |} ].

(** The scheduler grants capacity at once and no failure fires. *)
Definition calm (idx : nat) : StepSchedule :=
  {| wait := 0; pid := 7; resumptions := [] |}.

Definition work_order_run (w : World Gen) : Outcome unit * World Gen :=
  run_work_order config calm one_step_route [etchers] 100 w.

(** Records logged by the two machines in turn, and then a step on the
    first machine and a work order. *)
Definition first_activities : list Activity :=
  [ Logging (ProductionCall 0 100 200 1 0 1000 1000 "completed");
    Logging (QualityCall 0 100 200 1 1 100 90 10);
    Logging (DowntimeCall 1 101 201 "Drive Belt Snapped" 400 400 700) ].

Definition later_activities : list Activity :=
  [ Logging (ProductionCall 1 101 201 1 0 1300 1000 "interrupted");
    Logging (QualityCall 1 101 201 1 2 100 88 12);
    Processing 0 7 one_failure "WO-252" 1 1 100 200 (9 # 10) 100
      process_noise repair_behavior quality_config;
    WorkOrder config calm one_step_route [etchers] 100 ].

(** Run specifications of a time-driven run that names a volume. *)
Definition time_run_specs : RunSpecs :=
  {| run_mode := "time"; num_machines := 2; num_products := 3;
     num_work_orders := Some 500%Z; wip_limit := None;
     wip_poll_interval := Some 60%Z; sim_horizon_days := Some 1 |}.

End Scripted.

(** ** The float subtraction of the interpreter

    CPython's [float.__sub__] is the binary64 subtraction of the machine,
    which is also what the kernel's primitive floats compute. *)

Module Binary64.

(** A whole number as a float; exact below [2^53]. *)
Definition float_of_Z (z : Z) : float :=
  match z with
  | Z0 => PrimFloat.zero
  | Zpos _ => PrimFloat.of_uint63 (Uint63.of_Z z)
  | Zneg p => PrimFloat.opp (PrimFloat.of_uint63 (Uint63.of_Z (Zpos p)))
  end.

(** The float nearest to a rational whose numerator and denominator are
    below [2^53]; the rational itself when it is a float. *)
Definition float_of_Q (q : Q) : float :=
  PrimFloat.div (float_of_Z (Qnum q)) (float_of_Z (Zpos (Qden q))).

(** The rational a finite float stands for, in lowest terms. *)
Definition Q_of_float (f : float) : Q :=
  match Prim2SF f with
  | S754_finite s m e =>
      let n := if s then Zneg m else Zpos m in
      Qred (match e with
            | Z0 => inject_Z n
            | Zpos k => inject_Z (n * 2 ^ Zpos k)
            | Zneg k => n # (2 ^ k)
            end)
  | _ => 0%Q
  end.

(** [x - y] on floats. *)
Definition binary64_sub (x y : Q) : Q :=
  Q_of_float (PrimFloat.sub (float_of_Q x) (float_of_Q y)).

#[export] Instance binary64 : FloatSub := binary64_sub.

(** The float that follows 1000 is [1000 + 2^-43]. *)
Definition next_up_1000 : Q := 1000 + (1 # 8796093022208).

End Binary64.

(** ** Further helpers of [helper_functions.py] *)

(** The draws of a numpy [Generator] that the code above does not use. *)
Class NumpyDiscrete (G : Type) := {
  (** [g.poisson(lam)] *)
  poisson : G -> Q -> Z * G;
  (** [g.integers(low=l, high=h)] *)
  integers : G -> Z -> Z -> Z * G;
  (** [g.exponential(scale)] *)
  exponential : G -> Q -> Q * G;
  (** [g.choice(options)] on a list of strings *)
  choice : G -> list string -> string * G }.

(** [helper_functions.generate_batch_group_size], on the state of the
    generator it is handed. *)
Definition generate_batch_group_size {G} `{!NumpyDiscrete G}
    (lam : Q) (min_val max_val : Z) (rng : G) : Z * G :=
  let '(size, rng') := poisson rng lam in
  (Z.max min_val (Z.min size max_val), rng').

(** [[x] * k]: a list of [k] copies, empty when [k] is not positive. *)
Definition py_repeat {A} (x : A) (k : Z) : list A := replicate (Z.to_nat k) x.

(** [sum(l)] *)
Definition py_sum (l : list Z) : Z := foldr Z.add 0%Z l.

(** [helper_functions.split_into_batches]; [//] and [%] round towards
    minus infinity, as [Z.div] and [Z.modulo] do. *)
Definition split_into_batches (unit_count max_batches : Z) : Outcome (list Z) :=
  if (unit_count <=? 0)%Z then Returned []
  else
    let num_batches := Z.min max_batches unit_count in
    if (num_batches =? 0)%Z then Raised ZeroDivisionError
    else
      let base_size := (unit_count / num_batches)%Z in
      let remainder := (unit_count mod num_batches)%Z in
      let batches :=
        py_repeat (base_size + 1)%Z remainder ++
        py_repeat base_size (num_batches - remainder)%Z in
      Returned batches.

(** ** Quantities along a route and machines at rest *)

(** The quality events of successive steps account for the quantity that
    entered each step and hand the approved quantity on to the next. *)
Fixpoint quantity_chain (q : Z) (qes : list QualityEvent) : Prop :=
  match qes with
  | [] => True
  | qe :: rest =>
      initial_quantity qe = q /\
      (units_approved qe + units_scrapped qe = q)%Z /\
      quantity_chain (units_approved qe) rest
  end.

(** The quantity that leaves the last step of the chain. *)
Definition final_quantity (q : Z) (qes : list QualityEvent) : Z :=
  default q (units_approved <$> last qes).

(** A machine that serves no step: not flagged, no process handle, both
    quantities zero. *)
Definition idle_and_empty (m : Machine) : Prop :=
  is_busy m = false /\ current_process m = None /\
  start_quantity m = 0%Z /\ end_quantity m = 0%Z.

(** ** [Plant.build_machine_type_resources] and [Plant.dispatch_work_order] *)

(** The references of the machines of type [item], in the order of
    [Plant.Machines]; [i] is the reference of the first machine of [Ms]. *)
Fixpoint members_from (i : nat) (Ms : list Machine) (item : string) : list nat :=
  match Ms with
  | [] => []
  | m :: rest =>
      if String.eqb (machine_type m) item
      then i :: members_from (S i) rest item
      else members_from (S i) rest item
  end.

(** [machine_counts[item]]: how often [item] occurs in [type_list]. *)
Definition machine_counts (type_list : list string) (item : string) : Z :=
  Z.of_nat (count_occ String.string_dec type_list item).

(** [Plant.build_machine_type_resources], on an empty [machine_types]
    dictionary.  [np.unique] also sorts the distinct names; that order only
    fixes the order in which the keys are inserted. *)
Definition build_machine_type_resources (Ms : list Machine)
    : gmap string MachineType :=
  let type_list := map machine_type Ms in
  let unique_values := remove_dups type_list in
  foldl (fun machine_types item =>
           <[item := {| mt_machine_type := item;
                        capacity := machine_counts type_list item;
                        machines := members_from 0 Ms item |}]> machine_types)
    ∅ unique_values.

(** [self.machine_types[machine_type]] on a name that is not a key. *)
Inductive KeyError :=
  | KeyError_of (key : string).

(** [Plant.dispatch_work_order]: the pools and the steps, or the
    [KeyError] of the first step whose machine type has no pool. *)
Fixpoint dispatch_work_order (machine_types : gmap string MachineType)
    (work_order_df : list Process_Step)
    : KeyError + list MachineType * list Process_Step :=
  match work_order_df with
  | [] => inr ([], [])
  | step :: rest =>
      match machine_types !! step_machine_type step with
      | None => inl (KeyError_of (step_machine_type step))
      | Some pool =>
          match dispatch_work_order machine_types rest with
          | inl e => inl e
          | inr (machine_pool, work_order_steps) =>
              inr (pool :: machine_pool, step :: work_order_steps)
          end
      end
  end.

(** ** [Machine.cause_failure] *)

(** [time_to_failure] *)
Record TimeToFailure := { low_range : Z; high_range : Z }.

(** What one pass of the failure generator does to the process that
    serves the machine. *)
Inductive FailureSignal :=
  | NoSignal
  | InterruptSignal (process : nat) (cause : string).

(** The failure types [cause_failure] chooses from. *)
Definition failure_types : list string :=
  ["Bearing Seizure"; "Drive Belt Snapped"; "Hydraulic Fluid Leak";
   "Pneumatic Pressure Loss"; "Motor Overheating"; "Electrical Short Circuit";
   "Sensor Misalignment"; "PLC Logic Error"; "Lubrication Starvation";
   "Vacuum Pump Cavitation"; "Chamber Contamination"; "MFC Drift";
   "Wafer Handling Robot Jam"; "ESD Event"; "RF Generator Arc-over";
   "Ion Source Depletion"; "Mask Misalignment"; "CDS Clog";
   "Turbo Pump Vibration"; "Calibration Drift"].

Section Failures.

Context {G : Type} `{!NumpyGenerator G} `{!NumpyDiscrete G} `{!FloatPow}
  `{!FloatSub}.

Local Open Scope Q_scope.

Local Notation "x <- c1 ;; c2" := (bind c1 (fun x => c2))
  (at level 100, c1 at next level, right associativity).
Local Notation "c1 ;; c2" := (bind c1 (fun _ => c2))
  (at level 100, right associativity).

Definition set_failure_rng (g : G) (r : Rngs G) : Rngs G :=
  {| arrival := arrival r; processing := processing r; failure := g;
     quality := quality r; structure := structure r |}.

(** [local_rng.integers(low=l, high=h)] on the module-level generator of
    [Machine.py]; numpy raises a [ValueError] unless [l < h]. *)
Definition local_rng_integers (low high : Z) : M Z :=
  fun w =>
    if (high <=? low)%Z then (Raised (ValueError "low >= high"), w)
    else
      let '(k, g) := integers (local_rng w) low high in
      (Returned k, set_local_rng g w).

(** [local_rng.exponential(scale)]; numpy raises a [ValueError] for a
    negative scale. *)
Definition local_rng_exponential (scale : Q) : M Q :=
  fun w =>
    if Qlt_le_dec scale 0 then (Raised (ValueError "scale < 0"), w)
    else
      let '(x, g) := exponential (local_rng w) scale in
      (Returned x, set_local_rng g w).

(** [self.failure_rng.choice(options)] on the injected [rngs['failure']]. *)
Definition failure_rng_choice (options : list string) : M string :=
  fun w =>
    let '(s, g) := choice (failure (rngs w)) options in
    (Returned s, set_rngs (set_failure_rng g (rngs w)) w).

(** One pass through the [while True:] loop, up to the end of the wait. *)
Definition cause_failure_wait (time_to_failure : TimeToFailure) : M unit :=
  let low_bound := low_range time_to_failure in
  let high_bound := high_range time_to_failure in
  mean_ttf <- local_rng_integers low_bound high_bound ;;
  failure_time <- local_rng_exponential (inject_Z mean_ttf) ;;
  timeout failure_time.

(** The rest of the pass, run when the wait is over: the signal sent to
    the process that serves the machine. *)
Definition cause_failure_strike (self : nat) : M FailureSignal :=
  m <- getattr self ;;
  if is_operational m then
    failure_type_selection <- failure_rng_choice failure_types ;;
    m <- getattr self ;;
    match current_process m with
    | Some process => ret (InterruptSignal process failure_type_selection)
    | None => ret NoSignal
    end
  else ret NoSignal.

(** The world in which [handle_interrupt] is suspended at
    [yield env.timeout(repair_time)], and the delay it waits for. *)
Definition repair_pending (self : nat) (repair_behavior : RepairBehavior)
    (w : World G) : Outcome Q * World G :=
  (setattr self (set_is_operational false) ;;
   vary_repair_time repair_behavior) w.

End Failures.

(** ** [helper_functions.get_work_order_sets] *)

(** pandas' [Series.unique()]: the distinct values in the order of their
    first appearance. *)
Fixpoint pd_unique (l : list string) : list string :=
  match l with
  | [] => []
  | x :: l' => x :: filter (fun y => y <> x) (pd_unique l')
  end.

(** [l[start:stop]], for indices of either sign. *)
Definition py_slice {A} (l : list A) (start stop : Z) : list A :=
  let n := Z.of_nat (length l) in
  let norm k := if (k <? 0)%Z then Z.max 0 (k + n) else Z.min k n in
  take (Z.to_nat (norm stop - norm start)) (drop (Z.to_nat (norm start)) l).

(** [df[df['work_order_id'].isin(ids)]] *)
Definition rows_isin (df : list Process_Step) (ids : list string)
    : list Process_Step :=
  filter (fun row => work_order_id row ∈ ids) df.

(** [[group for _, group in df.groupby('work_order_id', sort=False)]]: one
    frame for each work order id, in the order of first appearance. *)
Definition groupby_work_order_id (df : list Process_Step)
    : list (list Process_Step) :=
  map (fun wid => filter (fun row => work_order_id row = wid) df)
    (pd_unique (map work_order_id df)).

(** [config['batch_sizes']] *)
Record PoissonParams := { pp_lambda : Q; pp_min_val : Z; pp_max_val : Z }.

(** The [while i < len(unique_ids):] loop of the generator: the frames it
    yields, batch by batch, and the generator state it leaves, or [None]
    when it is still yielding after [fuel] batches. *)
Fixpoint get_work_order_sets_loop {G} `{!NumpyDiscrete G} (fuel : nat)
    (df_ready_work_orders : list Process_Step) (unique_ids : list string)
    (lam : Q) (min_val max_val : Z) (i : Z) (rng : G)
    : option (list (list (list Process_Step)) * G) :=
  if (i <? Z.of_nat (length unique_ids))%Z then
    match fuel with
    | O => None
    | S fuel' =>
        let '(current_set_size, rng') :=
          generate_batch_group_size lam min_val max_val rng in
        let ids_to_pull := py_slice unique_ids i (i + current_set_size) in
        let work_order_groups := rows_isin df_ready_work_orders ids_to_pull in
        match get_work_order_sets_loop fuel' df_ready_work_orders unique_ids
                lam min_val max_val (i + current_set_size)%Z rng' with
        | None => None
        | Some (later, rng'') =>
            Some (groupby_work_order_id work_order_groups :: later, rng'')
        end
    end
  else Some ([], rng).

(** [helper_functions.get_work_order_sets] *)
Definition get_work_order_sets {G} `{!NumpyDiscrete G} (fuel : nat)
    (df_ready_work_orders : list Process_Step) (poisson_params : PoissonParams)
    (rng : G) : option (list (list (list Process_Step)) * G) :=
  let lam := pp_lambda poisson_params in
  let min_val := pp_min_val poisson_params in
  let max_val := pp_max_val poisson_params in
  let unique_ids := pd_unique (map work_order_id df_ready_work_orders) in
  get_work_order_sets_loop fuel df_ready_work_orders unique_ids lam min_val
    max_val 0 rng.

(** ** Further concrete inputs *)

Module Cases.

Import Scripted.

Local Open Scope Q_scope.

(** The discrete draws of the scripted generator: [poisson] hands out the
    whole part of the prepared variate, [integers] the lower bound,
    [exponential] the scale itself and [choice] the first option. *)
#[export] Instance scripted_discrete : NumpyDiscrete Gen := {|
  poisson g lam := let '(z, g') := draw g in (Qfloor z, g');
  integers g low high := (low, g);
  exponential g scale := (scale, g);
  choice g options := (hd EmptyString options, g) |}.

(** A plant with the machines [Ms] at the start of a run. *)
Definition world_of (Ms : list Machine) : World Gen :=
  {| now := 0;
     Machines := Ms;
     ids := {| _event_id_counter := 1; _batch_id_counter := 1;
               _downtime_id_counter := 1; _quality_id_counter := 1 |};
     local_rng := [];
     hf_local_rng := [];
     rngs := seeded_rngs;
     work_order_start_times := ∅;
     work_order_end_times := ∅ |}.

(** A machine that process 3 is still working on. *)
Definition active_world : World Gen :=
  world_of [ set_current_process (Some 3%nat)
               (set_is_busy true (Machine_init 11 "Etcher" 1000 None)) ].

(** A machine whose nominal cycle time is half a second. *)
Definition slow_world : World Gen :=
  world_of [ Machine_init 13 "Etcher" (1 # 2) None ].

(** A machine under repair that process 7 is working on. *)
Definition under_repair_world : World Gen :=
  world_of [ set_is_operational false
               (set_current_process (Some 7%nat)
                  (Machine_init 11 "Etcher" 1000 None)) ].

(** Two etchers with a stepper between them. *)
Definition two_type_plant : list Machine :=
  [ Machine_init 11 "Etcher" 1000 None;
    Machine_init 21 "Stepper" 800 None;
    Machine_init 12 "Etcher" 1000 None ].

(** Work order ["WO-300"]: a stepper step and then an etcher step. *)
Definition two_step_route : list Process_Step :=
  [ {| work_order_id := "WO-300"; step_number := 1; process_id := 110;
       process_route_id := 210; target_yield_rate := 9 # 10;
       step_machine_type := "Stepper" |};
    {| work_order_id := "WO-300"; step_number := 2; process_id := 110;
       process_route_id := 211; target_yield_rate := 9 # 10;
       step_machine_type := "Etcher" |} ].

(** A route that asks for a machine type the plant does not have. *)
Definition unknown_type_route : list Process_Step :=
  [ {| work_order_id := "WO-301"; step_number := 1; process_id := 120;
       process_route_id := 220; target_yield_rate := 9 # 10;
       step_machine_type := "Furnace" |} ].

(** The rows of two work orders, interleaved. *)
Definition ready_work_orders : list Process_Step :=
  [ {| work_order_id := "WO-300"; step_number := 1; process_id := 110;
       process_route_id := 210; target_yield_rate := 9 # 10;
       step_machine_type := "Stepper" |};
    {| work_order_id := "WO-301"; step_number := 1; process_id := 120;
       process_route_id := 220; target_yield_rate := 9 # 10;
       step_machine_type := "Etcher" |};
    {| work_order_id := "WO-300"; step_number := 2; process_id := 110;
       process_route_id := 211; target_yield_rate := 9 # 10;
       step_machine_type := "Etcher" |} ].

(** The presets of [run_simulation.py]. *)
Definition time_to_failure : TimeToFailure :=
  {| low_range := 14400; high_range := 288000 |}.

Definition batch_sizes : PoissonParams :=
  {| pp_lambda := 5; pp_min_val := 1; pp_max_val := 12 |}.

(** Batch sizes whose bounds are both zero. *)
Definition no_batch_sizes : PoissonParams :=
  {| pp_lambda := 5; pp_min_val := 0; pp_max_val := 0 |}.

(** A machine whose nominal cycle time is 2000 seconds. *)
Definition long_world : World Gen :=
  world_of [ Machine_init 14 "Etcher" 2000 None ].

(** A thousand failures, each one second after processing resumes. *)
Definition steady_failures : list Resumption :=
  replicate 1000 (Interrupt "Sensor Misalignment" 1).

(** One step of work order ["WO-251"] at a target yield of 0.99. *)
Definition high_yield_step (sched : list Resumption) (w : World Gen)
    : Outcome unit * World Gen :=
  process_order 0 7 sched "WO-251" 1 1 100 200 (99 # 100) 100
    process_noise repair_behavior quality_config w.

(** Run specifications of a volume-driven run with a negative count. *)
Definition volume_run_specs : RunSpecs :=
  {| run_mode := "volume"; num_machines := 2; num_products := 3;
     num_work_orders := Some (-5)%Z; wip_limit := None;
     wip_poll_interval := Some 60%Z; sim_horizon_days := None |}.

End Cases.
(** * Properties *)

(** ** Numbers *)

Lemma py_min_pos a b : (0 < a)%Q -> (0 < b)%Q -> (0 < Num.py_min a b)%Q.
Proof. intros Ha Hb. unfold Num.py_min. destruct (Qlt_le_dec b a); lra. Qed.

Lemma epsilon_pos : (0 < Num.epsilon)%Q.
Proof. reflexivity. Qed.

(** ** Computations *)

Section Facts.

Context {G : Type} `{!NumpyGenerator G} `{!FloatPow} `{Fsub : !FloatSub}.

Local Open Scope Q_scope.

Implicit Types (w : World G) (m : Machine) (self r : nat).

Lemma bind_Returned {A B} (c : M A) (k : A -> M B) w b w' :
  bind c k w = (Returned b, w') ->
  exists a w1, c w = (Returned a, w1) /\ k a w1 = (Returned b, w').
Proof.
  unfold bind. destruct (c w) as [[a|e] w1]; [eauto | discriminate].
Qed.

Lemma bind_outcome {A B} (c : M A) (k : A -> M B) w o w' :
  bind c k w = (o, w') ->
  (exists a w1, c w = (Returned a, w1) /\ k a w1 = (o, w')) \/
  (exists e, c w = (Raised e, w') /\ o = Raised e).
Proof.
  unfold bind. destruct (c w) as [[a|e] w1]; [eauto | ].
  intros [= <- <-]. eauto.
Qed.


Lemma lookup_alter_self (f : Machine -> Machine) (l : list Machine) i m :
  l !! i = Some m -> alter f i l !! i = Some (f m).
Proof. intros Hl. by rewrite list_lookup_alter_eq, Hl. Qed.

(** ** [MachineType.select_machine] *)

Lemma select_machine_scan_idle w pre r post m :
  Forall (busy_in w) pre ->
  Machines w !! r = Some m -> is_busy m = false ->
  select_machine_scan (pre ++ r :: post) w =
    (Returned r, set_Machines (alter (set_is_busy true) r (Machines w)) w).
Proof.
  intros Hpre Hr Hidle.
  induction Hpre as [|r0 pre (m0 & Hr0 & Hb0) _ IH]; simpl.
  - unfold bind, getattr. rewrite Hr, Hidle. reflexivity.
  - unfold bind, getattr. rewrite Hr0, Hb0. simpl. exact IH.
Qed.

Lemma select_machine_scan_raises w ms e w' :
  select_machine_scan ms w = (Raised e, w') ->
  w' = w /\
  ((e = RuntimeError "Capacity granted but no idle machine found" /\
    Forall (busy_in w) ms) \/
   (e = InvalidReference /\ ~ Forall (busy_in w) ms)).
Proof.
  induction ms as [|r ms IH]; simpl.
  - intros [= <- <-]. split; [done|]. left. split; [done | constructor].
  - unfold bind, getattr.
    destruct (Machines w !! r) as [m|] eqn:Hr.
    + destruct (is_busy m) eqn:Hb; simpl.
      * intros Hs. destruct (IH Hs) as [-> [[-> Hall]|[-> Hnot]]].
        -- split; [done|]. left. split; [done|].
           constructor; [by exists m | done].
        -- split; [done|]. right. split; [done|].
           intros Hall. apply Hnot. by inversion Hall.
      * discriminate.
    + intros [= <- <-]. split; [done|]. right. split; [done|].
      intros Hall. inversion Hall as [|? ? (m & Hm & _) _]; congruence.
Qed.

Lemma select_machine_scan_all_busy w ms :
  Forall (busy_in w) ms ->
  select_machine_scan ms w =
    (Raised (RuntimeError "Capacity granted but no idle machine found"), w).
Proof.
  induction 1 as [|r ms (m & Hr & Hb) _ IH]; simpl; [done|].
  unfold bind, getattr. rewrite Hr, Hb. simpl. exact IH.
Qed.

(** C6.  [select_machine] returns the first member, in list order, whose
    [is_busy] flag is false; that machine's flag is set and nothing else in
    the world changes.  It raises a [RuntimeError], leaving the world as it
    is, exactly when every member is busy. *)
Theorem select_machine_first_idle (mt : MachineType) w :
  (forall pre r post m,
      machines mt = pre ++ r :: post ->
      Forall (busy_in w) pre ->
      Machines w !! r = Some m -> is_busy m = false ->
      exists w',
        select_machine mt w = (Returned r, w') /\
        Machines w' !! r = Some (set_is_busy true m) /\
        (forall r', r' <> r -> Machines w' !! r' = Machines w !! r') /\
        w' = set_Machines (Machines w') w) /\
  ((exists msg w', select_machine mt w = (Raised (RuntimeError msg), w')) <->
   Forall (busy_in w) (machines mt)) /\
  (Forall (busy_in w) (machines mt) ->
   select_machine mt w =
     (Raised (RuntimeError "Capacity granted but no idle machine found"), w)).
Proof.
  unfold select_machine. split; [|split].
  - intros pre r post m -> Hpre Hr Hidle.
    eexists. split; [by eapply select_machine_scan_idle|]. simpl.
    split; [by apply lookup_alter_self|]. split; [|done].
    intros r' Hne. by apply list_lookup_alter_ne.
  - split.
    + intros (msg & w' & Hs).
      apply select_machine_scan_raises in Hs as [_ [[_ Hall]|[[=] _]]]. done.
    + intros Hall. do 2 eexists. by apply select_machine_scan_all_busy.
  - apply select_machine_scan_all_busy.
Qed.

(** ** Frames *)

Global Instance kept_at_preorder {A} (proj : Machine -> A) self :
  PreOrder (kept_at (G:=G) proj self).
Proof.
  split.
  - intros w m Hm. eauto.
  - intros w1 w2 w3 H12 H23 m Hm.
    destruct (H12 m Hm) as (m2 & Hm2 & E2).
    destruct (H23 m2 Hm2) as (m3 & Hm3 & E3).
    exists m3. split; [done | congruence].
Qed.

Global Instance same_elsewhere_preorder self : PreOrder (same_elsewhere (G:=G) self).
Proof.
  split.
  - intros w r _. done.
  - intros w1 w2 w3 H12 H23 r Hr. rewrite (H23 r Hr). by apply H12.
Qed.

Global Instance start_times_kept_preorder : PreOrder (start_times_kept (G:=G)).
Proof.
  split.
  - intros w id t. done.
  - intros w1 w2 w3 H12 H23 id t Ht. by apply H23, H12.
Qed.

Global Instance end_times_kept_preorder : PreOrder (end_times_kept (G:=G)).
Proof.
  split.
  - intros w. done.
  - intros w1 w2 w3. unfold end_times_kept. congruence.
Qed.

Global Instance rngs_kept_preorder : PreOrder (rngs_kept (G:=G)).
Proof.
  split.
  - intros w. done.
  - intros w1 w2 w3. unfold rngs_kept. congruence.
Qed.

Global Instance clock_advances_preorder : PreOrder (clock_advances (G:=G)).
Proof.
  split.
  - intros w. unfold clock_advances. lra.
  - intros w1 w2 w3. unfold clock_advances. lra.
Qed.

Lemma respects_ret {A} (R : relation (World G)) `{!Reflexive R} (a : A) :
  respects R (ret a).
Proof. intros w o w' [= <- <-]. reflexivity. Qed.

Lemma respects_raise {A} (R : relation (World G)) `{!Reflexive R} e :
  respects R (raise (A:=A) e).
Proof. intros w o w' [= <- <-]. reflexivity. Qed.

Lemma respects_bind {A B} (R : relation (World G)) `{!Transitive R}
    (c : M A) (k : A -> M B) :
  respects R c -> (forall a, respects R (k a)) -> respects R (bind c k).
Proof.
  intros Hc Hk w o w' Hb.
  apply bind_outcome in Hb as [(a & w1 & Ha & Hka)|(e & He & _)].
  - transitivity w1; [by eapply Hc | by eapply Hk].
  - by eapply Hc.
Qed.

Lemma respects_py_assert (R : relation (World G)) `{!Reflexive R} b msg :
  respects R (py_assert b msg).
Proof. destruct b; [apply respects_ret | apply respects_raise]; done. Qed.

Lemma respects_getattr (R : relation (World G)) `{!Reflexive R} r :
  respects R (getattr r).
Proof.
  intros w o w'. unfold getattr. destruct (Machines w !! r); intros [= <- <-]; reflexivity.
Qed.

Lemma respects_env_now (R : relation (World G)) `{!Reflexive R} :
  respects R env_now.
Proof. intros w o w' [= <- <-]. reflexivity. Qed.

Lemma respects_setattr_kept {A} (proj : Machine -> A) self r f :
  (forall m, proj (f m) = proj m) ->
  respects (G:=G) (kept_at proj self) (setattr r f).
Proof.
  intros Hf w o w' [= <- <-] m Hm. simpl.
  rewrite list_lookup_alter. destruct (decide (r = self)) as [->|Hne].
  - rewrite Hm. simpl. eauto.
  - eauto.
Qed.

Lemma respects_setattr_elsewhere self f :
  respects (G:=G) (same_elsewhere self) (setattr self f).
Proof.
  intros w o w' [= <- <-] r Hr. simpl. by apply list_lookup_alter_ne.
Qed.

Lemma respects_setattr_start_times r f :
  respects (G:=G) start_times_kept (setattr r f).
Proof. intros w o w' [= <- <-]. by intros id t. Qed.

Lemma respects_setattr_end_times r f :
  respects (G:=G) end_times_kept (setattr r f).
Proof. intros w o w' [= <- <-]. done. Qed.

Lemma respects_setattr_rngs r f : respects (G:=G) rngs_kept (setattr r f).
Proof. intros w o w' [= <- <-]. done. Qed.

Lemma respects_setattr_clock r f : respects (G:=G) clock_advances (setattr r f).
Proof. intros w o w' [= <- <-]. unfold clock_advances. simpl. lra. Qed.

(** The primitives that leave the machines alone. *)
Ltac run_primitive :=
  let w := fresh "w" in
  let o := fresh "o" in
  let w' := fresh "w'" in
  let Hc := fresh "Hc" in
  intros w o w' Hc;
  cbv [timeout interrupted granted next_event_id next_batch_id
       next_downtime_id next_quality_id local_rng_normal
       hf_local_rng_lognormal quality_rng_binomial record_start_time
       record_end_time raise] in Hc;
  repeat case_match; simplify_eq;
  cbv [kept_at same_elsewhere start_times_kept end_times_kept rngs_kept
       clock_advances resumption_wf] in *;
  simpl; eauto; try lra.

Ltac respects_step :=
  cbv beta zeta;
  lazymatch goal with
  | |- respects _ (bind _ _) =>
      refine (respects_bind _ _ _ _ _); [ | intros ? ]
  | |- respects _ (ret _) => refine (respects_ret _ _)
  | |- respects _ (raise _) => refine (respects_raise _ _)
  | |- respects _ (py_assert _ _) => refine (respects_py_assert _ _ _)
  | |- respects _ (getattr _) => refine (respects_getattr _ _)
  | |- respects _ env_now => refine (respects_env_now _)
  | |- respects (kept_at _ _) (setattr _ _) =>
      apply respects_setattr_kept; intros []; reflexivity
  | |- respects (same_elsewhere _) (setattr _ _) =>
      apply respects_setattr_elsewhere
  | |- respects start_times_kept (setattr _ _) =>
      apply respects_setattr_start_times
  | |- respects end_times_kept (setattr _ _) =>
      apply respects_setattr_end_times
  | |- respects rngs_kept (setattr _ _) => apply respects_setattr_rngs
  | |- respects clock_advances (setattr _ _) => apply respects_setattr_clock
  | |- respects _ (if ?b then _ else _) => destruct b
  | |- respects _ (match ?x with _ => _ end) => destruct x
  | |- respects _ _ => first [ solve [ auto 1 ] | solve [ run_primitive ] ]
  end.

Ltac respects_auto :=
  cbv [vary_cycle_time vary_repair_time log_production_event
       log_downtime_event log_quality_event handle_interrupt try_segment
       start_processing finish_processing];
  repeat respects_step.

(** *** The frames of [process_order] *)

Lemma start_processing_kept self pid wid q pn :
  respects (G:=G) (kept_at outside_start self) (start_processing self pid wid q pn).
Proof. respects_auto. Qed.

Lemma start_processing_elsewhere self pid wid q pn :
  respects (G:=G) (same_elsewhere self) (start_processing self pid wid q pn).
Proof. respects_auto. Qed.

Lemma start_processing_start_times self pid wid q pn :
  respects (G:=G) start_times_kept (start_processing self pid wid q pn).
Proof. respects_auto. Qed.

Lemma start_processing_end_times self pid wid q pn :
  respects (G:=G) end_times_kept (start_processing self pid wid q pn).
Proof. respects_auto. Qed.

Lemma start_processing_rngs self pid wid q pn :
  respects (G:=G) rngs_kept (start_processing self pid wid q pn).
Proof. respects_auto. Qed.

Lemma start_processing_clock self pid wid q pn :
  respects (G:=G) clock_advances (start_processing self pid wid q pn).
Proof. respects_auto. Qed.

Lemma processing_loop_kept self prid ptid rb act sched st :
  respects (G:=G) (kept_at outside_repair self)
    (processing_loop self prid ptid rb act sched st).
Proof.
  revert st. induction sched as [|r sched IH]; intros st; simpl; respects_auto.
Qed.

Lemma processing_loop_elsewhere self prid ptid rb act sched st :
  respects (G:=G) (same_elsewhere self)
    (processing_loop self prid ptid rb act sched st).
Proof.
  revert st. induction sched as [|r sched IH]; intros st; simpl; respects_auto.
Qed.

Lemma processing_loop_start_times self prid ptid rb act sched st :
  respects (G:=G) start_times_kept
    (processing_loop self prid ptid rb act sched st).
Proof.
  revert st. induction sched as [|r sched IH]; intros st; simpl; respects_auto.
Qed.

Lemma processing_loop_end_times self prid ptid rb act sched st :
  respects (G:=G) end_times_kept
    (processing_loop self prid ptid rb act sched st).
Proof.
  revert st. induction sched as [|r sched IH]; intros st; simpl; respects_auto.
Qed.

Lemma processing_loop_rngs self prid ptid rb act sched st :
  respects (G:=G) rngs_kept (processing_loop self prid ptid rb act sched st).
Proof.
  revert st. induction sched as [|r sched IH]; intros st; simpl; respects_auto.
Qed.

Lemma processing_loop_clock self prid ptid rb act sched st :
  Forall resumption_wf sched ->
  respects (G:=G) clock_advances
    (processing_loop self prid ptid rb act sched st).
Proof.
  intros Hwf. revert st.
  induction Hwf as [|r sched Hr _ IH]; intros st; simpl; respects_auto.
Qed.

(** Running a straight-line computation on a world in which the machine
    [self] is known. *)
Ltac exec H Hm :=
  cbv [bind ret raise py_assert getattr setattr env_now timeout
       interrupted granted next_event_id next_batch_id next_downtime_id
       next_quality_id local_rng_normal hf_local_rng_lognormal
       quality_rng_binomial vary_cycle_time vary_repair_time
       log_production_event log_downtime_event log_quality_event
       set_now set_Machines set_ids set_local_rng set_hf_local_rng set_rngs
       set_work_order_start_times set_work_order_end_times] in H;
  simpl in H;
  repeat first
    [ progress (rewrite ?list_lookup_alter_eq, ?Hm in H; simpl in H)
    | progress (case_match; simplify_eq; simpl in * ) ];
  repeat match goal with
    | Hx : context [alter _ _ _ !! _] |- _ =>
        rewrite list_lookup_alter_eq in Hx
    | Hl : ?l !! ?i = Some _, Hx : context [?l !! ?i] |- _ =>
        tryif constr_eq Hl Hx then fail else (rewrite Hl in Hx; simpl in Hx)
    | Hl : ?l !! ?i = None, Hx : context [?l !! ?i] |- _ =>
        tryif constr_eq Hl Hx then fail else (rewrite Hl in Hx; simpl in Hx)
    end;
  simplify_eq; simpl in *.

(** *** One repair cycle *)

Lemma handle_interrupt_effect self prid ptid rb seg cause st w st' w' m :
  handle_interrupt self prid ptid rb seg cause st w = (Returned st', w') ->
  Machines w !! self = Some m ->
  exists de m',
    Machines w' !! self = Some m' /\
    downtime_log m' = downtime_log m ++ [de] /\
    is_operational m' = true /\
    counter st' = (counter st + 1)%Z /\
    loop_guard st' = loop_guard st /\
    usage_duration de =
      (if Qlt_le_dec 0 (now w - seg) then now w - seg
       else py_min epsilon (remaining_time st)) /\
    remaining_time st' =
      (if Qlt_le_dec (float_sub (remaining_time st) (usage_duration de)) 0
       then 0 else float_sub (remaining_time st) (usage_duration de)).
Proof.
  intros Hh Hm. unfold handle_interrupt in Hh. exec Hh Hm.
  all: do 2 eexists; simpl.
  all: rewrite ?list_lookup_alter_eq, ?Hm; simpl.
  all: (split; [reflexivity|]); simpl.
  all: split; [reflexivity|]; simpl.
  all: repeat (split; [reflexivity|]).
  all: repeat match goal with
         | Hx : Qlt_le_dec ?a ?b = _ |- context [Qlt_le_dec ?a ?b] =>
             rewrite Hx
         end; reflexivity.
Qed.

Lemma try_segment_timer self prid ptid rb st w st' w' :
  try_segment self prid ptid rb TimerExpired st w = (Returned st', w') ->
  st' = {| remaining_time := 0; counter := counter st;
           loop_guard := loop_guard st |} /\
  Machines w' = Machines w.
Proof.
  unfold try_segment. intros Ht.
  cbv [bind env_now timeout ret set_now] in Ht.
  destruct (Qlt_le_dec (remaining_time st) 0); simplify_eq. done.
Qed.

Lemma try_segment_interrupt self prid ptid rb cause after st w st' w' m :
  try_segment self prid ptid rb (Interrupt cause after) st w = (Returned st', w') ->
  Machines w !! self = Some m ->
  exists de m',
    Machines w' !! self = Some m' /\
    downtime_log m' = downtime_log m ++ [de] /\
    is_operational m' = true /\
    counter st' = (counter st + 1)%Z /\
    loop_guard st' = loop_guard st /\
    usage_duration de =
      (if Qlt_le_dec 0 (now w + after - now w) then now w + after - now w
       else py_min epsilon (remaining_time st)) /\
    remaining_time st' =
      (if Qlt_le_dec (float_sub (remaining_time st) (usage_duration de)) 0
       then 0 else float_sub (remaining_time st) (usage_duration de)).
Proof.
  unfold try_segment. intros Ht Hm.
  apply bind_Returned in Ht as (seg & w1 & [= <- <-] & Ht).
  apply bind_Returned in Ht as ([] & w2 & [= <-] & Ht).
  eapply handle_interrupt_effect in Ht; [|exact Hm]. exact Ht.
Qed.

(** *** The loop as a whole *)

Lemma processing_loop_count self prid ptid rb act sched st w st' w' m :
  processing_loop self prid ptid rb act sched st w = (Returned st', w') ->
  Machines w !! self = Some m ->
  (0 <= counter st)%Z -> loop_guard st = counter st ->
  (loop_guard st <= 1000)%Z ->
  exists m' dl,
    Machines w' !! self = Some m' /\
    downtime_log m' = downtime_log m ++ dl /\
    ((~ ceiling_tripped st' /\
      counter st' = (counter st + Z.of_nat (length dl))%Z) \/
     (ceiling_tripped st' /\ counter st' = (-1)%Z /\
      (counter st + Z.of_nat (length dl) = 1000)%Z)).
Proof.
  revert st w m.
  assert (Hexit : forall st w m, Machines w !! self = Some m ->
            (loop_guard st <= 1000)%Z ->
            exists m' dl, Machines w !! self = Some m' /\
              downtime_log m' = downtime_log m ++ dl /\
              ((~ ceiling_tripped st /\
                counter st = (counter st + Z.of_nat (length dl))%Z) \/
               (ceiling_tripped st /\ counter st = (-1)%Z /\
                (counter st + Z.of_nat (length dl) = 1000)%Z))).
  { intros st w m Hm Hg. exists m, []. split; [done|].
    split; [by rewrite app_nil_r|]. left. unfold ceiling_tripped. simpl. lia. }
  assert (Htrip : forall st w m, Machines w !! self = Some m ->
            loop_guard st = counter st -> (1000 < loop_guard st + 1)%Z ->
            (loop_guard st <= 1000)%Z ->
            exists m' dl, Machines w !! self = Some m' /\
              downtime_log m' = downtime_log m ++ dl /\
              ((~ (1000 < loop_guard st + 1)%Z /\
                (-1)%Z = (counter st + Z.of_nat (length dl))%Z) \/
               ((1000 < loop_guard st + 1)%Z /\ (-1)%Z = (-1)%Z /\
                (counter st + Z.of_nat (length dl) = 1000)%Z))).
  { intros st w m Hm Hgc Hlt Hg. exists m, []. split; [done|].
    split; [by rewrite app_nil_r|]. right. simpl. lia. }
  induction sched as [|r sched IH]; intros st w m Hl Hm Hc Hgc Hg; simpl in Hl.
  - destruct (Qlt_le_dec 0 (remaining_time st)); [|unfold ret in Hl; simplify_eq; by eapply Hexit].
    apply bind_Returned in Hl as ([] & w1 & Ha & Hl).
    unfold py_assert in Ha. destruct (Qle_bool _ _); [|discriminate].
    injection Ha as <-. simpl in Hl.
    destruct (1000 <? loop_guard st + 1)%Z eqn:Hguard.
    + injection Hl as <- <-. apply Z.ltb_lt in Hguard.
      unfold ceiling_tripped; simpl. by eapply Htrip.
    + apply Z.ltb_ge in Hguard.
      apply try_segment_timer in Hl as [-> HM]. rewrite HM.
      exists m, []. split; [done|]. split; [by rewrite app_nil_r|].
      left. unfold ceiling_tripped. simpl. lia.
  - destruct (Qlt_le_dec 0 (remaining_time st)); [|unfold ret in Hl; simplify_eq; by eapply Hexit].
    apply bind_Returned in Hl as ([] & w1 & Ha & Hl).
    unfold py_assert in Ha. destruct (Qle_bool _ _); [|discriminate].
    injection Ha as <-. simpl in Hl.
    destruct (1000 <? loop_guard st + 1)%Z eqn:Hguard.
    + injection Hl as <- <-. apply Z.ltb_lt in Hguard.
      unfold ceiling_tripped; simpl. by eapply Htrip.
    + apply Z.ltb_ge in Hguard.
      apply bind_Returned in Hl as (st1 & w2 & Ht & Hl).
      destruct r as [|cause after].
      * apply try_segment_timer in Ht as [-> HM].
        destruct sched; simpl in Hl; injection Hl as <- <-.
        all: rewrite HM; exists m, []; split; [done|].
        all: split; [by rewrite app_nil_r|].
        all: left; unfold ceiling_tripped; simpl; lia.
      * eapply try_segment_interrupt in Ht as
          (de & m1 & Hm1 & Hd1 & _ & Hc1 & Hg1 & _); [|exact Hm].
        simpl in Hc1, Hg1.
        eapply IH in Hl as (m' & dl & Hm' & Hd' & Hcases); [|exact Hm1|lia..].
        exists m', (de :: dl). split; [done|].
        split; [by rewrite Hd', Hd1, <- app_assoc|].
        simpl length. rewrite Hc1 in Hcases.
        destruct Hcases as [[? ?]|(? & ? & ?)]; [left|right]; repeat split;
          try done; lia.
Qed.

(** *** Before and after the loop *)

Lemma start_processing_effect self pid wid q pn w act ps w1 :
  start_processing self pid wid q pn w = (Returned (act, ps), w1) ->
  exists m m1,
    Machines w !! self = Some m /\ current_process m = None /\
    0 < act /\ ps = now w /\ now w1 = now w /\ ids w1 = ids w /\
    Machines w1 !! self = Some m1 /\
    start_quantity m1 = q /\ current_work_order m1 = Some wid /\
    is_busy m1 = true /\ current_process m1 = Some pid.
Proof.
  intros Hs. unfold start_processing in Hs.
  apply bind_Returned in Hs as (m & w0 & Hg & Hs).
  unfold getattr in Hg. destruct (Machines w !! self) as [m0|] eqn:Hm; [|done].
  injection Hg as -> <-.
  exec Hs Hm.
  exists m, (set_current_process (Some pid)
     (set_start_quantity q (set_current_work_order (Some wid)
        (set_is_busy true m)))).
  rewrite !list_lookup_alter_eq, Hm. simpl.
  repeat split; try done.
  - by eapply bool_decide_eq_true_1.
  - match goal with Hx : negb _ = true |- _ => apply negb_true_iff in Hx end.
    match goal with Hx : Qle_bool ?a 0 = false |- _ =>
      destruct (Qlt_le_dec 0 a) as [|Hle]; [done|];
      apply Qle_bool_iff in Hle; congruence end.
Qed.

Lemma finish_processing_effect self sn n prid ptid target ql act ps st w m w' :
  finish_processing self sn n prid ptid target ql act ps st w = (Returned tt, w') ->
  Machines w !! self = Some m ->
  exists pe qe m',
    Machines w' !! self = Some m' /\
    production_log m' = production_log m ++ [pe] /\
    quality_log m' = quality_log m ++ [qe] /\
    downtime_log m' = downtime_log m /\
    is_busy m' = false /\ current_process m' = None /\
    current_work_order m' = None /\
    start_quantity m' = start_quantity m /\
    end_quantity m' = units_approved qe /\
    event_status pe = status_of_counter (counter st) /\
    process_start pe = ps /\ process_end pe = now w /\
    actual_cycle_time pe = act /\
    event_id pe = _event_id_counter (ids w) /\
    batch_id pe = _batch_id_counter (ids w) /\
    quality_id qe = _quality_id_counter (ids w) /\
    qe_batch_id qe = batch_id pe /\
    initial_quantity qe = start_quantity m /\
    units_scrapped qe = (start_quantity m - units_approved qe)%Z /\
    n <> 0%Z /\
    units_approved qe =
      (binomial (quality (rngs w)) (start_quantity m)
         (py_max (min_yield ql)
            (float_pow target (1 / inject_Z n) -
             inject_Z (counter st) * interrupt_penalty ql))).1.
Proof.
  intros Hf Hm. unfold finish_processing in Hf.
  destruct (n =? 0)%Z eqn:Hn.
  { cbv [bind env_now setattr raise] in Hf. discriminate. }
  apply Z.eqb_neq in Hn.
  exec Hf Hm.
  do 3 eexists. rewrite !list_lookup_alter_eq, Hm. simpl.
  split; [reflexivity|]. simpl.
  split; [reflexivity|]. split; [reflexivity|]. simpl.
  repeat split; done.
Qed.

Lemma finish_processing_elsewhere self sn n prid ptid target ql act ps st :
  respects (G:=G) (same_elsewhere self)
    (finish_processing self sn n prid ptid target ql act ps st).
Proof. respects_auto. Qed.

Lemma finish_processing_start_times self sn n prid ptid target ql act ps st :
  respects (G:=G) start_times_kept
    (finish_processing self sn n prid ptid target ql act ps st).
Proof. respects_auto. Qed.

Lemma finish_processing_end_times self sn n prid ptid target ql act ps st :
  respects (G:=G) end_times_kept
    (finish_processing self sn n prid ptid target ql act ps st).
Proof. respects_auto. Qed.

Lemma finish_processing_clock self sn n prid ptid target ql act ps st :
  respects (G:=G) clock_advances
    (finish_processing self sn n prid ptid target ql act ps st).
Proof. respects_auto. Qed.

(** *** [process_order] as a whole *)

Lemma process_order_elsewhere self pid sched wid sn n prid ptid target q pn rb ql :
  respects (G:=G) (same_elsewhere self)
    (process_order self pid sched wid sn n prid ptid target q pn rb ql).
Proof.
  unfold process_order.
  refine (respects_bind _ _ _ _ _); [apply start_processing_elsewhere|].
  intros started. cbv zeta.
  refine (respects_bind _ _ _ _ _); [apply processing_loop_elsewhere|].
  intros st. apply finish_processing_elsewhere.
Qed.

Lemma process_order_start_times self pid sched wid sn n prid ptid target q pn rb ql :
  respects (G:=G) start_times_kept
    (process_order self pid sched wid sn n prid ptid target q pn rb ql).
Proof.
  unfold process_order.
  refine (respects_bind _ _ _ _ _); [apply start_processing_start_times|].
  intros started. cbv zeta.
  refine (respects_bind _ _ _ _ _); [apply processing_loop_start_times|].
  intros st. apply finish_processing_start_times.
Qed.

Lemma process_order_end_times self pid sched wid sn n prid ptid target q pn rb ql :
  respects (G:=G) end_times_kept
    (process_order self pid sched wid sn n prid ptid target q pn rb ql).
Proof.
  unfold process_order.
  refine (respects_bind _ _ _ _ _); [apply start_processing_end_times|].
  intros started. cbv zeta.
  refine (respects_bind _ _ _ _ _); [apply processing_loop_end_times|].
  intros st. apply finish_processing_end_times.
Qed.

Lemma process_order_clock self pid sched wid sn n prid ptid target q pn rb ql :
  Forall resumption_wf sched ->
  respects (G:=G) clock_advances
    (process_order self pid sched wid sn n prid ptid target q pn rb ql).
Proof.
  intros Hwf. unfold process_order.
  refine (respects_bind _ _ _ _ _); [apply start_processing_clock|].
  intros started. cbv zeta.
  refine (respects_bind _ _ _ _ _); [by apply processing_loop_clock|].
  intros st. apply finish_processing_clock.
Qed.

(** An execution that returns went through the three parts; the machine,
    the loop's exit state and the two events are as follows. *)
Lemma process_order_returns self pid sched wid sn n prid ptid target q pn rb ql w w' :
  process_order self pid sched wid sn n prid ptid target q pn rb ql w =
    (Returned tt, w') ->
  exists m act w1 st w2 dl pe qe m',
    Machines w !! self = Some m /\ current_process m = None /\ 0 < act /\
    start_processing self pid wid q pn w = (Returned (act, now w), w1) /\
    processing_loop self prid ptid rb act sched
      {| remaining_time := act; counter := 0; loop_guard := 0 |} w1 =
      (Returned st, w2) /\
    finish_processing self sn n prid ptid target ql act (now w) st w2 =
      (Returned tt, w') /\
    ((~ ceiling_tripped st /\ counter st = Z.of_nat (length dl)) \/
     (ceiling_tripped st /\ counter st = (-1)%Z /\ length dl = 1000%nat)) /\
    Machines w' !! self = Some m' /\
    production_log m' = production_log m ++ [pe] /\
    quality_log m' = quality_log m ++ [qe] /\
    downtime_log m' = downtime_log m ++ dl /\
    is_busy m' = false /\ current_process m' = None /\
    current_work_order m' = None /\
    event_status pe = status_of_counter (counter st) /\
    actual_cycle_time pe = act /\ process_start pe = now w /\
    initial_quantity qe = q /\
    units_scrapped qe = (q - units_approved qe)%Z /\
    n <> 0%Z /\
    units_approved qe =
      (binomial (quality (rngs w)) q
         (py_max (min_yield ql)
            (float_pow target (1 / inject_Z n) -
             inject_Z (counter st) * interrupt_penalty ql))).1.
Proof.
  intros Hp. unfold process_order in Hp.
  apply bind_Returned in Hp as ([act ps] & w1 & Hs & Hp). simpl in Hp.
  apply bind_Returned in Hp as (st & w2 & Hl & Hf).
  destruct (start_processing_effect _ _ _ _ _ _ _ _ _ Hs)
    as (m & m1 & Hm & Hcp & Hact & -> & _ & _ & Hm1 & Hq1 & _).
  pose proof (start_processing_kept _ _ _ _ _ _ _ _ Hs m Hm)
    as (m1' & Hm1' & Hk1).
  rewrite Hm1 in Hm1'. injection Hm1' as <-.
  pose proof (start_processing_rngs _ _ _ _ _ _ _ _ Hs) as Hr1.
  pose proof (processing_loop_kept _ _ _ _ _ _ _ _ _ _ Hl m1 Hm1)
    as (m2 & Hm2 & Hk2).
  pose proof (processing_loop_rngs _ _ _ _ _ _ _ _ _ _ Hl) as Hr2.
  destruct (processing_loop_count _ _ _ _ _ _ _ _ _ _ _ Hl Hm1)
    as (m2' & dl & Hm2' & Hd2 & Hcases); simpl; try lia.
  rewrite Hm2 in Hm2'. injection Hm2' as <-.
  destruct (finish_processing_effect _ _ _ _ _ _ _ _ _ _ _ _ _ Hf Hm2)
    as (pe & qe & m' & Hm' & Hpl & Hql & Hdl & Hb & Hc & Hwo & Hsq & _ & Hst
        & Hps & _ & Hac & _ & _ & _ & _ & Hiq & Hsc & Hn & Hgood).
  unfold outside_repair in Hk2. unfold outside_start in Hk1.
  unfold rngs_kept in Hr1, Hr2.
  injection Hk1 as ? ? ? ? ? ? ? ?. injection Hk2 as ? ? ? ? ? ? ? ? ? ?.
  exists m, act, w1, st, w2, dl, pe, qe, m'.
  do 6 (split; [done|]).
  split.
  { simpl in Hcases. destruct Hcases as [[? ?]|(? & ? & ?)]; [left|right];
      repeat split; try done; lia. }
  split; [done|].
  split; [congruence|]. split; [congruence|]. split; [congruence|].
  do 6 (split; [done|]).
  split; [congruence|]. split; [congruence|]. split; [done|].
  rewrite Hgood. congruence.
Qed.

(** ** Quantities, yield, statuses and the idle state *)


(** C3.  The success probability handed to the binomial draw is
    [max(min_yield, target_yield ** (1 / num_steps)
         - interrupt_count * interrupt_penalty)],
    where [interrupt_count] is the number of repair cycles the execution
    went through (the downtime events it logged), or [-1] when the loop was
    left through the iteration ceiling. *)
Theorem step_yield_formula self pid sched wid sn n prid ptid
    target q pn rb ql w w' :
  process_order self pid sched wid sn n prid ptid target q pn rb ql w =
    (Returned tt, w') ->
  exists m m' act w1 st w2 dl qe interrupt_count,
    Machines w !! self = Some m /\ Machines w' !! self = Some m' /\
    start_processing self pid wid q pn w = (Returned (act, now w), w1) /\
    processing_loop self prid ptid rb act sched
      {| remaining_time := act; counter := 0; loop_guard := 0 |} w1 =
      (Returned st, w2) /\
    downtime_log m' = downtime_log m ++ dl /\
    quality_log m' = quality_log m ++ [qe] /\
    ((~ ceiling_tripped st /\ interrupt_count = Z.of_nat (length dl)) \/
     (ceiling_tripped st /\ interrupt_count = (-1)%Z)) /\
    units_approved qe =
      (binomial (quality (rngs w)) q
         (py_max (min_yield ql)
            (float_pow target (1 / inject_Z n) -
             inject_Z interrupt_count * interrupt_penalty ql))).1.
Proof.
  intros Hp.
  destruct (process_order_returns _ _ _ _ _ _ _ _ _ _ _ _ _ _ _ Hp)
    as (m & act & w1 & st & w2 & dl & pe & qe & m' & Hm & _ & _ & Hs & Hl & _
        & Hcases & Hm' & _ & Hql & Hdl & _ & _ & _ & _ & _ & _ & _ & _ & _
        & Hgood).
  exists m, m', act, w1, st, w2, dl, qe, (counter st).
  repeat (split; [done|]). split; [|done].
  destruct Hcases as [[? ?]|(? & ? & ?)]; [by left | by right].
Qed.

(** C4.  An execution of [process_order] that returns appends exactly one
    production event and exactly one quality event to the machine's logs
    and leaves every other machine alone.  The status of the production
    event is ["completed"] when the loop ended without an interrupt,
    ["interrupted"] when it ended after one or more repair cycles, and
    ["failed"] when it was left through the iteration ceiling. *)
Theorem process_order_logs_one_event_each self pid sched wid sn n prid ptid
    target q pn rb ql w w' :
  process_order self pid sched wid sn n prid ptid target q pn rb ql w =
    (Returned tt, w') ->
  exists m m' act w1 st w2 dl pe qe,
    Machines w !! self = Some m /\ Machines w' !! self = Some m' /\
    start_processing self pid wid q pn w = (Returned (act, now w), w1) /\
    processing_loop self prid ptid rb act sched
      {| remaining_time := act; counter := 0; loop_guard := 0 |} w1 =
      (Returned st, w2) /\
    production_log m' = production_log m ++ [pe] /\
    quality_log m' = quality_log m ++ [qe] /\
    downtime_log m' = downtime_log m ++ dl /\
    (forall r, r <> self -> Machines w' !! r = Machines w !! r) /\
    ((event_status pe = "completed" /\ counter st = 0%Z /\ dl = [] /\
      ~ ceiling_tripped st) \/
     (event_status pe = "interrupted" /\ (0 < counter st)%Z /\
      counter st = Z.of_nat (length dl) /\ ~ ceiling_tripped st) \/
     (event_status pe = "failed" /\ (counter st < 0)%Z /\
      ceiling_tripped st)).
Proof.
  intros Hp.
  destruct (process_order_returns _ _ _ _ _ _ _ _ _ _ _ _ _ _ _ Hp)
    as (m & act & w1 & st & w2 & dl & pe & qe & m' & Hm & _ & _ & Hs & Hl & _
        & Hcases & Hm' & Hpl & Hql & Hdl & _ & _ & _ & Hst & _).
  exists m, m', act, w1, st, w2, dl, pe, qe.
  repeat (split; [done|]).
  split; [by apply (process_order_elsewhere _ _ _ _ _ _ _ _ _ _ _ _ _ _ _ _ Hp)|].
  rewrite Hst. unfold status_of_counter.
  destruct Hcases as [[Hnt Hc]|(Ht & Hc & _)].
  - destruct dl as [|d dl]; simpl in Hc.
    + left. rewrite Hc. done.
    + right; left. destruct (0 <? counter st)%Z eqn:Hpos.
      * apply Z.ltb_lt in Hpos. done.
      * apply Z.ltb_ge in Hpos. lia.
  - right; right. rewrite Hc. simpl. split; [done|]. split; [lia|done].
Qed.

(** C10.  An execution of [process_order] that returns leaves the machine
    idle: [is_busy] is false and [current_process] and [current_work_order]
    are [None], so that the pool no longer sees it as busy. *)
Theorem process_order_restores_idle self pid sched wid sn n prid ptid
    target q pn rb ql w w' :
  process_order self pid sched wid sn n prid ptid target q pn rb ql w =
    (Returned tt, w') ->
  exists m',
    Machines w' !! self = Some m' /\
    is_busy m' = false /\ current_process m' = None /\
    current_work_order m' = None /\ ~ busy_in w' self.
Proof.
  intros Hp.
  destruct (process_order_returns _ _ _ _ _ _ _ _ _ _ _ _ _ _ _ Hp)
    as (m & act & w1 & st & w2 & dl & pe & qe & m' & _ & _ & _ & _ & _ & _
        & _ & Hm' & _ & _ & _ & Hb & Hc & Hwo & _).
  exists m'. repeat (split; [done|]).
  intros (m0 & Hm0 & Hb0). congruence.
Qed.

(** ** The remaining time of the processing loop *)

Lemma try_segment_decreases self prid ptid rb (r : Resumption) st w st' w' :
  float_sub_never_above ->
  0 < remaining_time st ->
  try_segment self prid ptid rb r st w = (Returned st', w') ->
  0 <= remaining_time st' /\ remaining_time st' <= remaining_time st /\
  loop_guard st' = loop_guard st.
Proof.
  intros Hsub Hpos Ht. destruct r as [|cause after].
  - apply try_segment_timer in Ht as [-> _]. simpl. split; [lra|].
    split; [lra|done].
  - destruct (Machines w !! self) as [m|] eqn:Hm.
    + eapply try_segment_interrupt in Ht as
        (de & m' & _ & _ & _ & _ & Hg & Hu & Hr); [|exact Hm].
      split; [|split; [|done]].
      * rewrite Hr. destruct (Qlt_le_dec _ 0); lra.
      * assert (0 < usage_duration de) as Hupos.
        { rewrite Hu. destruct (Qlt_le_dec 0 _); [done|].
          apply py_min_pos; [apply epsilon_pos | done]. }
        pose proof (Hsub (remaining_time st) (usage_duration de) Hupos).
        rewrite Hr. destruct (Qlt_le_dec _ 0); lra.
    + exfalso. unfold try_segment, handle_interrupt in Ht. exec Ht Hm.
Qed.

(** One pass of the loop body is one step of [loop_head]. *)
Lemma processing_loop_unfold self prid ptid rb act (r : Resumption) sched st w st1 w1 :
  0 < remaining_time st -> remaining_time st <= act ->
  (loop_guard st + 1 <= 1000)%Z ->
  try_segment self prid ptid rb r
    {| remaining_time := remaining_time st; counter := counter st;
       loop_guard := (loop_guard st + 1)%Z |} w = (Returned st1, w1) ->
  processing_loop self prid ptid rb act (r :: sched) st w =
  processing_loop self prid ptid rb act sched st1 w1.
Proof.
  intros Hpos Hle Hg Ht. simpl.
  destruct (Qlt_le_dec 0 (remaining_time st)); [|lra].
  unfold bind at 1. unfold py_assert.
  apply Qle_bool_iff in Hle. rewrite Hle. simpl.
  destruct (1000 <? loop_guard st + 1)%Z eqn:Hlt.
  { apply Z.ltb_lt in Hlt. lia. }
  unfold bind. rewrite Ht. done.
Qed.

Lemma loop_head_bounds self prid ptid rb act st w st' w' :
  float_sub_never_above ->
  loop_head self prid ptid rb st w st' w' ->
  0 <= remaining_time st -> remaining_time st <= act ->
  (0 <= remaining_time st' /\ remaining_time st' <= remaining_time st) /\
  exists pre, forall post,
    processing_loop self prid ptid rb act (pre ++ post) st w =
    processing_loop self prid ptid rb act post st' w'.
Proof.
  intros Hsub.
  induction 1 as [st w|st w r st1 w1 st' w' Hpos Hg Ht _ IH]; intros Hnn Hle.
  - split; [split; [done | lra]|]. by exists [].
  - pose proof Ht as Hstep.
    apply try_segment_decreases in Ht as (H1 & H2 & _); [|done..].
    simpl in H2. destruct IH as [[? ?] [pre Hpre]]; [done|lra|].
    split; [split; lra|].
    exists (r :: pre). intros post. simpl app.
    rewrite (processing_loop_unfold _ _ _ _ act r (pre ++ post) st w st1 w1
               Hpos Hle Hg Hstep).
    apply Hpre.
Qed.

Lemma processing_loop_never_increases self prid ptid rb act sched st w o w' :
  float_sub_never_above ->
  0 <= remaining_time st -> remaining_time st <= act ->
  processing_loop self prid ptid rb act sched st w = (o, w') ->
  o <> Raised (AssertionError "Remaining time increased unexpectedly") /\
  (forall st', o = Returned st' ->
     0 <= remaining_time st' /\ remaining_time st' <= act).
Proof.
  intros Hsub.
  revert st w. induction sched as [|r sched IH]; intros st w H0 Hle Hl;
    simpl in Hl.
  all: destruct (Qlt_le_dec 0 (remaining_time st)) as [Hpos|Hnpos];
    [|unfold ret in Hl; simplify_eq; split; [done|];
      by intros st' [= <-]].
  all: unfold bind at 1 in Hl; unfold py_assert in Hl.
  all: pose proof Hle as Hle'; apply Qle_bool_iff in Hle'; rewrite Hle' in Hl.
  all: simpl in Hl.
  all: destruct (1000 <? loop_guard st + 1)%Z;
    [unfold ret in Hl; simplify_eq; split; [done|];
     by intros st' [= <-]|].
  - destruct o as [st'|e].
    + apply try_segment_decreases in Hl as (H1 & H2 & _); [|done..].
      simpl in H2. split; [done|]. intros ? [= <-]. split; lra.
    + split; [|done]. intros [= ->].
      cbv [try_segment bind env_now timeout ret] in Hl.
      repeat case_match; simplify_eq.
  - apply bind_outcome in Hl as [(st1 & w1 & Ht & Hl)|(e & Ht & ->)].
    + apply try_segment_decreases in Ht as (H1 & H2 & _); [|done..].
      simpl in H2. eapply IH; [done| |exact Hl]. lra.
    + split; [|done]. intros [= ->].
      destruct r as [|cause after].
      * cbv [try_segment bind env_now timeout ret] in Ht.
        repeat case_match; simplify_eq.
      * unfold try_segment, handle_interrupt in Ht.
        destruct (Machines w !! self) as [m|] eqn:Hm; exec Ht Hm.
Qed.



(** ** Identifiers *)

Lemma flat_map_alter_app {A B} (f : A -> list B) (g : A -> A) (l : list A)
    i a x :
  l !! i = Some a -> f (g a) = f a ++ [x] ->
  flat_map f (alter g i l) ≡ₚ flat_map f l ++ [x].
Proof.
  revert i. induction l as [|b l IH]; intros [|i] Hl Hf; simplify_eq/=.
  - rewrite Hf, <- !app_assoc. apply Permutation_app_head.
    apply Permutation_app_comm.
  - rewrite <- app_assoc. apply Permutation_app_head. by apply IH.
Qed.

Lemma flat_map_alter_same {A B} (f : A -> list B) (g : A -> A) (l : list A) i :
  (forall a, f (g a) = f a) -> flat_map f (alter g i l) = flat_map f l.
Proof.
  intros Hf. revert i. induction l as [|b l IH]; intros [|i]; simpl; try done.
  - by rewrite Hf.
  - f_equal. apply IH.
Qed.

Lemma log_production_event_effect self a b c ps pe act es w bid w' :
  log_production_event self a b c ps pe act es w = (Returned bid, w') ->
  exists m e,
    Machines w !! self = Some m /\
    Machines w' =
      alter (set_production_log (production_log m ++ [e])) self (Machines w) /\
    event_id e = _event_id_counter (ids w) /\
    batch_id e = _batch_id_counter (ids w) /\
    bid = batch_id e /\
    ids w' = {| _event_id_counter := _event_id_counter (ids w) + 1;
                _batch_id_counter := _batch_id_counter (ids w) + 1;
                _downtime_id_counter := _downtime_id_counter (ids w);
                _quality_id_counter := _quality_id_counter (ids w) |}.
Proof.
  intros Hc. destruct (Machines w !! self) as [m|] eqn:Hm;
    unfold log_production_event in Hc; exec Hc Hm.
  do 2 eexists. split; [done|]. split; [reflexivity|]. done.
Qed.

Lemma log_downtime_event_effect self a b ft u fs fe w w' :
  log_downtime_event self a b ft u fs fe w = (Returned tt, w') ->
  exists m e,
    Machines w !! self = Some m /\
    Machines w' =
      alter (set_downtime_log (downtime_log m ++ [e])) self (Machines w) /\
    downtime_id e = _downtime_id_counter (ids w) /\
    ids w' = {| _event_id_counter := _event_id_counter (ids w);
                _batch_id_counter := _batch_id_counter (ids w);
                _downtime_id_counter := _downtime_id_counter (ids w) + 1;
                _quality_id_counter := _quality_id_counter (ids w) |}.
Proof.
  intros Hc. destruct (Machines w !! self) as [m|] eqn:Hm;
    unfold log_downtime_event in Hc; exec Hc Hm.
  do 2 eexists. split; [done|]. split; [reflexivity|]. done.
Qed.

Lemma log_quality_event_effect self a b c bid iq gu su w w' :
  log_quality_event self a b c bid iq gu su w = (Returned tt, w') ->
  exists m e,
    Machines w !! self = Some m /\
    Machines w' =
      alter (set_quality_log (quality_log m ++ [e])) self (Machines w) /\
    quality_id e = _quality_id_counter (ids w) /\
    ids w' = {| _event_id_counter := _event_id_counter (ids w);
                _batch_id_counter := _batch_id_counter (ids w);
                _downtime_id_counter := _downtime_id_counter (ids w);
                _quality_id_counter := _quality_id_counter (ids w) + 1 |}.
Proof.
  intros Hc. destruct (Machines w !! self) as [m|] eqn:Hm;
    unfold log_quality_event in Hc; exec Hc Hm.
  do 2 eexists. split; [done|]. split; [reflexivity|]. done.
Qed.

(** Appending a record with the identifier [c] to one log of one machine,
    when every identifier on record is below [c]. *)
Lemma append_keeps_ids {E} (f : Machine -> list E) (id : E -> Z)
    (g : Machine -> Machine) (l : list Machine) i m e c :
  l !! i = Some m -> f (g m) = f m ++ [e] -> id e = c ->
  Forall (fun x => (id x < c)%Z) (flat_map f l) ->
  NoDup (map id (flat_map f l)) ->
  Forall (fun m => StronglySorted Z.lt (map id (f m))) l ->
  Forall (fun x => (id x < c + 1)%Z) (flat_map f (alter g i l)) /\
  NoDup (map id (flat_map f (alter g i l))) /\
  Forall (fun m => StronglySorted Z.lt (map id (f m))) (alter g i l) /\
  (forall x, x ∈ flat_map f (alter g i l) ->
     x ∈ flat_map f l \/ (c <= id x)%Z).
Proof.
  intros Hl Hf Hid Hfresh Hnd Hinc.
  pose proof (flat_map_alter_app f g l i m e Hl Hf) as Hperm.
  split; [|split; [|split]].
  - rewrite Hperm. apply Forall_app. split.
    + eapply Forall_impl; [exact Hfresh|]. simpl. intros. lia.
    + constructor; [lia | constructor].
  - rewrite Hperm, map_app. simpl. apply NoDup_app. split; [done|].
    split; [|apply NoDup_singleton].
    intros z Hz Hz'. apply list_elem_of_singleton in Hz'. subst z.
    apply list_elem_of_fmap in Hz as (x & Hx & Hin).
    rewrite Forall_forall in Hfresh. specialize (Hfresh x Hin). lia.
  - apply Forall_lookup. intros j mj Hj.
    rewrite list_lookup_alter in Hj. destruct (decide (i = j)) as [<-|Hne].
    + rewrite Hl in Hj. injection Hj as <-. rewrite Hf, map_app. simpl.
      apply StronglySorted_app_2.
      * intros z1 z2 Hz1 Hz2. apply list_elem_of_singleton in Hz2. subst z2.
        apply list_elem_of_fmap in Hz1 as (x & -> & Hin).
        rewrite Forall_forall in Hfresh. rewrite Hid. apply Hfresh.
        apply list_elem_of_In, in_flat_map. exists m. split.
        -- apply list_elem_of_In. by eapply list_elem_of_lookup_2.
        -- by apply list_elem_of_In.
      * rewrite Forall_lookup in Hinc. by eapply Hinc.
      * repeat constructor.
    + rewrite Forall_lookup in Hinc. by eapply Hinc.
  - intros x Hx. rewrite Hperm in Hx. apply elem_of_app in Hx as [Hx|Hx].
    + by left.
    + apply list_elem_of_singleton in Hx. subst x. right. lia.
Qed.

Lemma same_keeps_increasing {E} (f : Machine -> list E) (id : E -> Z)
    (g : Machine -> Machine) (l : list Machine) i :
  (forall a, f (g a) = f a) ->
  Forall (fun m => StronglySorted Z.lt (map id (f m))) l ->
  Forall (fun m => StronglySorted Z.lt (map id (f m))) (alter g i l).
Proof.
  intros Hf Hinc. apply Forall_lookup. intros j mj Hj.
  rewrite Forall_lookup in Hinc.
  rewrite list_lookup_alter in Hj. destruct (decide (i = j)) as [<-|Hne].
  - destruct (l !! i) as [a|] eqn:Ha; [|done]. injection Hj as <-.
    rewrite Hf. by eapply Hinc.
  - by eapply Hinc.
Qed.

Lemma log_call_keeps_ids c w w' :
  log_call c w = (Returned tt, w') ->
  ids_fresh w -> ids_unique w -> logs_increasing w ->
  ids_fresh w' /\ ids_unique w' /\ logs_increasing w' /\ drawn_since w w'.
Proof.
  intros Hc (F1 & F2 & F3 & F4) (U1 & U2 & U3 & U4) (I1 & I2 & I3 & I4).
  unfold ids_fresh, ids_unique, logs_increasing, drawn_since,
    agg_production_logs, agg_downtime_logs, agg_quality_logs in *.
  destruct c; simpl in Hc.
  - apply bind_Returned in Hc as (bid & w1 & Hc & [= <-]).
    apply log_production_event_effect in Hc
      as (m & e & Hm & -> & He & Hb & _ & ->). simpl.
    destruct (append_keeps_ids production_log event_id
                (set_production_log (production_log m ++ [e])) _ _ _ e _ Hm
                eq_refl He F1 U1 I1) as (A1 & A2 & A3 & A4).
    destruct (append_keeps_ids production_log batch_id
                (set_production_log (production_log m ++ [e])) _ _ _ e _ Hm
                eq_refl Hb F2 U2 I2) as (B1 & B2 & B3 & B4).
    rewrite !(flat_map_alter_same downtime_log), !(flat_map_alter_same quality_log)
      by done.
    repeat split; try done; try lia; try (by apply same_keeps_increasing).
    all: auto.
  - apply log_downtime_event_effect in Hc as (m & e & Hm & -> & He & ->).
    simpl.
    destruct (append_keeps_ids downtime_log downtime_id
                (set_downtime_log (downtime_log m ++ [e])) _ _ _ e _ Hm
                eq_refl He F3 U3 I3) as (A1 & A2 & A3 & A4).
    rewrite !(flat_map_alter_same production_log),
      !(flat_map_alter_same quality_log) by done.
    repeat split; try done; try lia; try (by apply same_keeps_increasing).
    all: auto.
  - apply log_quality_event_effect in Hc as (m & e & Hm & -> & He & ->).
    simpl.
    destruct (append_keeps_ids quality_log quality_id
                (set_quality_log (quality_log m ++ [e])) _ _ _ e _ Hm
                eq_refl He F4 U4 I4) as (A1 & A2 & A3 & A4).
    rewrite !(flat_map_alter_same production_log),
      !(flat_map_alter_same downtime_log) by done.
    repeat split; try done; try lia; try (by apply same_keeps_increasing).
    all: auto.
Qed.

Lemma drawn_since_refl w : drawn_since w w.
Proof. unfold drawn_since. repeat split; try lia; auto. Qed.

Lemma drawn_since_trans w1 w2 w3 :
  drawn_since w1 w2 -> drawn_since w2 w3 -> drawn_since w1 w3.
Proof.
  intros ([E1 E2] & [B1 B2] & [D1 D2] & [Q1 Q2])
         ([E1' E2'] & [B1' B2'] & [D1' D2'] & [Q1' Q2']).
  unfold drawn_since. repeat split; try lia.
  - intros e He. destruct (E2' e He) as [?|?]; [auto | right; lia].
  - intros e He. destruct (B2' e He) as [?|?]; [auto | right; lia].
  - intros e He. destruct (D2' e He) as [?|?]; [auto | right; lia].
  - intros e He. destruct (Q2' e He) as [?|?]; [auto | right; lia].
Qed.

Lemma logs_empty_agg {E} (f : Machine -> list E) (l : list Machine) :
  Forall (fun m => f m = []) l -> flat_map f l = [].
Proof. induction 1 as [|m l Hm _ IH]; simpl; [done|]. by rewrite Hm, IH. Qed.

Lemma logs_empty_ids w :
  logs_empty w -> ids_fresh w /\ ids_unique w /\ logs_increasing w.
Proof.
  unfold logs_empty, ids_fresh, ids_unique, logs_increasing,
    agg_production_logs, agg_downtime_logs, agg_quality_logs.
  intros He.
  rewrite (logs_empty_agg production_log), (logs_empty_agg downtime_log),
    (logs_empty_agg quality_log).
  2-4: eapply Forall_impl; [exact He|]; simpl; by intros m (? & ? & ?).
  simpl. repeat split; try constructor.
  all: eapply Forall_impl; [exact He|]; simpl.
  all: intros m (E1 & E2 & E3); rewrite ?E1, ?E2, ?E3; simpl; constructor.
Qed.

Global Instance ids_kept_preorder : PreOrder (ids_kept (G:=G)).
Proof.
  split.
  - intros w HF HU HI. do 3 (split; [done|]). apply drawn_since_refl.
  - intros w1 w2 w3 H12 H23 HF HU HI.
    destruct (H12 HF HU HI) as (HF2 & HU2 & HI2 & HD2).
    destruct (H23 HF2 HU2 HI2) as (HF3 & HU3 & HI3 & HD3).
    do 3 (split; [done|]). by eapply drawn_since_trans.
Qed.

(** Counters that only go up, over machines that stay as they are. *)
Lemma ids_kept_counters_up w w' :
  Machines w' = Machines w ->
  (_event_id_counter (ids w) <= _event_id_counter (ids w'))%Z ->
  (_batch_id_counter (ids w) <= _batch_id_counter (ids w'))%Z ->
  (_downtime_id_counter (ids w) <= _downtime_id_counter (ids w'))%Z ->
  (_quality_id_counter (ids w) <= _quality_id_counter (ids w'))%Z ->
  ids_kept w w'.
Proof.
  intros HM HE HB HD HQ (F1 & F2 & F3 & F4) HU HI.
  unfold ids_fresh, ids_unique, logs_increasing, drawn_since,
    agg_production_logs, agg_downtime_logs, agg_quality_logs in *.
  rewrite HM. split; [|split; [done|split; [done|]]].
  - split; [|split; [|split]].
    + eapply Forall_impl; [exact F1|]. simpl. intros. lia.
    + eapply Forall_impl; [exact F2|]. simpl. intros. lia.
    + eapply Forall_impl; [exact F3|]. simpl. intros. lia.
    + eapply Forall_impl; [exact F4|]. simpl. intros. lia.
  - repeat split; auto.
Qed.

Lemma respects_setattr_ids r f :
  (forall m, logs_of (f m) = logs_of m) ->
  respects (G:=G) ids_kept (setattr r f).
Proof.
  intros Hf w o w' [= <- <-] HF HU (I1 & I2 & I3 & I4).
  assert (forall m, production_log (f m) = production_log m) as Hp
    by (intros m; specialize (Hf m); unfold logs_of in Hf; congruence).
  assert (forall m, downtime_log (f m) = downtime_log m) as Hd
    by (intros m; specialize (Hf m); unfold logs_of in Hf; congruence).
  assert (forall m, quality_log (f m) = quality_log m) as Hq
    by (intros m; specialize (Hf m); unfold logs_of in Hf; congruence).
  unfold ids_fresh, ids_unique, logs_increasing, drawn_since,
    agg_production_logs, agg_downtime_logs, agg_quality_logs in *. simpl.
  rewrite !(flat_map_alter_same production_log),
    !(flat_map_alter_same downtime_log),
    !(flat_map_alter_same quality_log) by done.
  split; [done|]. split; [done|]. split.
  - repeat split; by apply same_keeps_increasing.
  - repeat split; try lia; auto.
Qed.

Lemma log_production_event_ids self a b c ps pe act es :
  respects (G:=G) ids_kept (log_production_event self a b c ps pe act es).
Proof.
  intros w [bid|err] w' Hc.
  - intros HF HU HI.
    apply (log_call_keeps_ids (ProductionCall self a b c ps pe act es));
      try done.
    simpl. unfold bind. by rewrite Hc.
  - unfold log_production_event in Hc.
    destruct (Machines w !! self) as [m|] eqn:Hm; exec Hc Hm.
    apply ids_kept_counters_up; simpl; try done; lia.
Qed.

Lemma log_downtime_event_ids self a b ft u fs fe :
  respects (G:=G) ids_kept (log_downtime_event self a b ft u fs fe).
Proof.
  intros w [[]|err] w' Hc.
  - intros HF HU HI.
    by apply (log_call_keeps_ids (DowntimeCall self a b ft u fs fe)).
  - unfold log_downtime_event in Hc.
    destruct (Machines w !! self) as [m|] eqn:Hm; exec Hc Hm.
    apply ids_kept_counters_up; simpl; try done; lia.
Qed.

Lemma log_quality_event_ids self a b c bid iq gu su :
  respects (G:=G) ids_kept (log_quality_event self a b c bid iq gu su).
Proof.
  intros w [[]|err] w' Hc.
  - intros HF HU HI.
    by apply (log_call_keeps_ids (QualityCall self a b c bid iq gu su)).
  - unfold log_quality_event in Hc.
    destruct (Machines w !! self) as [m|] eqn:Hm; exec Hc Hm.
    apply ids_kept_counters_up; simpl; try done; lia.
Qed.

(** The primitives that touch neither the machines nor the counters. *)
Ltac run_quiet_primitive :=
  let w := fresh "w" in
  let o := fresh "o" in
  let w' := fresh "w'" in
  let Hc := fresh "Hc" in
  intros w o w' Hc;
  cbv [timeout interrupted granted local_rng_normal hf_local_rng_lognormal
       quality_rng_binomial record_start_time record_end_time raise] in Hc;
  repeat case_match; simplify_eq;
  apply ids_kept_counters_up; simpl; try done; lia.

Ltac ids_step :=
  cbv beta zeta;
  lazymatch goal with
  | |- respects _ (bind _ _) =>
      refine (respects_bind _ _ _ _ _); [ | intros ? ]
  | |- respects _ (ret _) => refine (respects_ret _ _)
  | |- respects _ (raise _) => refine (respects_raise _ _)
  | |- respects _ (py_assert _ _) => refine (respects_py_assert _ _ _)
  | |- respects _ (getattr _) => refine (respects_getattr _ _)
  | |- respects _ env_now => refine (respects_env_now _)
  | |- respects _ (setattr _ _) =>
      apply respects_setattr_ids; intros []; reflexivity
  | |- respects _ (log_production_event _ _ _ _ _ _ _ _) =>
      apply log_production_event_ids
  | |- respects _ (log_downtime_event _ _ _ _ _ _ _) =>
      apply log_downtime_event_ids
  | |- respects _ (log_quality_event _ _ _ _ _ _ _ _) =>
      apply log_quality_event_ids
  | |- respects _ (if ?b then _ else _) => destruct b
  | |- respects _ (match ?x with _ => _ end) => destruct x
  | |- respects _ _ => first [ solve [ auto 1 ] | solve [ run_quiet_primitive ] ]
  end.

Ltac ids_auto :=
  cbv [vary_cycle_time vary_repair_time handle_interrupt try_segment
       start_processing finish_processing];
  repeat ids_step.

Lemma processing_loop_ids self prid ptid rb act sched st :
  respects (G:=G) ids_kept (processing_loop self prid ptid rb act sched st).
Proof.
  revert st. induction sched as [|rs sched IH]; intros st; simpl; ids_auto.
Qed.

(** An execution of [process_order], however it ends, keeps the
    identifiers unique and increasing. *)
Lemma process_order_ids self pid sched wid sn n prid ptid target q pn rb ql :
  respects (G:=G) ids_kept
    (process_order self pid sched wid sn n prid ptid target q pn rb ql).
Proof.
  unfold process_order. pose proof processing_loop_ids as Hloop. ids_auto.
Qed.

Lemma select_machine_scan_ids ms :
  respects (G:=G) ids_kept (select_machine_scan ms).
Proof. induction ms as [|r ms IH]; simpl; ids_auto. Qed.

(** So does [run_work_order]. *)
Lemma run_work_order_ids config sched steps pool q :
  respects (G:=G) ids_kept (run_work_order config sched steps pool q).
Proof.
  unfold run_work_order.
  refine (respects_bind _ _ _ _ _); [|intros bound; ids_auto].
  generalize 0%nat q (@None string). induction steps as [|s steps IH];
    intros idx q0 bound; simpl; [ids_auto|].
  destruct (pool !! idx); [|ids_auto].
  pose proof select_machine_scan_ids as Hsel.
  pose proof process_order_ids as Hpo.
  unfold select_machine. ids_auto.
Qed.

(** ** [Plant.run_work_order] *)

Lemma select_machine_scan_start_times ms :
  respects (G:=G) start_times_kept (select_machine_scan ms).
Proof. induction ms as [|r ms IH]; simpl; respects_auto. Qed.

Lemma select_machine_scan_end_times ms :
  respects (G:=G) end_times_kept (select_machine_scan ms).
Proof. induction ms as [|r ms IH]; simpl; respects_auto. Qed.

Lemma select_machine_scan_clock ms :
  respects (G:=G) clock_advances (select_machine_scan ms).
Proof. induction ms as [|r ms IH]; simpl; respects_auto. Qed.

Lemma record_start_time_start_times wid :
  respects (G:=G) start_times_kept (record_start_time wid).
Proof.
  intros w o w' Hc id t Ht. unfold record_start_time in Hc.
  destruct (work_order_start_times w !! wid) eqn:Hw; simplify_eq; [done|].
  simpl. rewrite lookup_insert_ne; [done|]. intros ->. congruence.
Qed.

Lemma run_steps_end_times config sched pool idx steps q bound :
  respects (G:=G) end_times_kept (run_steps config sched pool idx steps q bound).
Proof.
  revert idx q bound. induction steps as [|s steps IH]; intros idx q bound;
    simpl; [respects_auto|].
  destruct (pool !! idx); [|respects_auto].
  pose proof select_machine_scan_end_times as Hsel.
  pose proof process_order_end_times as Hpo.
  unfold select_machine. respects_auto.
Qed.

Lemma run_steps_start_times config sched pool idx steps q bound :
  respects (G:=G) start_times_kept
    (run_steps config sched pool idx steps q bound).
Proof.
  revert idx q bound. induction steps as [|s steps IH]; intros idx q bound;
    simpl; [respects_auto|].
  destruct (pool !! idx); [|respects_auto].
  pose proof select_machine_scan_start_times as Hsel.
  pose proof process_order_start_times as Hpo.
  pose proof record_start_time_start_times as Hrs.
  unfold select_machine. respects_auto.
Qed.

Lemma run_steps_clock config sched pool idx steps q bound :
  (forall i, 0 <= wait (sched i) /\ Forall resumption_wf (resumptions (sched i))) ->
  respects (G:=G) clock_advances
    (run_steps config sched pool idx steps q bound).
Proof.
  intros Hwf.
  revert idx q bound. induction steps as [|s steps IH]; intros idx q bound;
    simpl; [respects_auto|].
  destruct (pool !! idx); [|respects_auto].
  pose proof select_machine_scan_clock as Hsel.
  destruct (Hwf idx) as [Hwait Hres].
  pose proof (fun self pid wid sn n prid ptid target q pn rb ql =>
    process_order_clock self pid (resumptions (sched idx)) wid sn n prid ptid
      target q pn rb ql Hres) as Hpo.
  unfold select_machine. respects_auto.
Qed.

Lemma run_steps_bound config sched pool idx steps q bound w b w' wid :
  run_steps config sched pool idx steps q bound w = (Returned b, w') ->
  Forall (fun s => work_order_id s = wid) steps ->
  (steps = [] /\ b = bound) \/ b = Some wid.
Proof.
  revert idx q bound w. induction steps as [|s steps IH];
    intros idx q bound w Hr Hall; simpl in Hr.
  - injection Hr as <- <-. by left.
  - right. inversion Hall as [|? ? Hs Hall']; subst.
    destruct (pool !! idx); [|discriminate].
    repeat (apply bind_Returned in Hr as (? & ? & _ & Hr)).
    destruct (IH _ _ _ _ Hr Hall') as [[_ ->] | ->]; done.
Qed.

Lemma run_steps_records_start config sched pool idx s steps q bound w b w' :
  run_steps config sched pool idx (s :: steps) q bound w = (Returned b, w') ->
  work_order_start_times w' !! work_order_id s =
    Some (default (now w) (work_order_start_times w !! work_order_id s)).
Proof.
  intros Hr. simpl in Hr. destruct (pool !! idx) as [mt|]; [|discriminate].
  apply bind_Returned in Hr as ([] & w1 & Hrec & Hr).
  assert (work_order_start_times w1 !! work_order_id s =
    Some (default (now w) (work_order_start_times w !! work_order_id s)))
    as Hw1.
  { unfold record_start_time in Hrec.
    destruct (work_order_start_times w !! work_order_id s) eqn:Hw;
      simplify_eq; simpl; [done|]. by rewrite lookup_insert_eq. }
  enough (start_times_kept w1 w') as Hk by (by apply Hk).
  pose proof select_machine_scan_start_times as Hsel.
  pose proof process_order_start_times as Hpo.
  pose proof run_steps_start_times as Hrun.
  match type of Hr with
  | ?c w1 = _ => assert (respects (G:=G) start_times_kept c) as HK
  end; [|by eapply HK].
  unfold select_machine. respects_auto.
Qed.

(** C8.  For a work order whose steps [run_work_order] drives to
    completion: the start time on record is the time of the first step's
    capacity request (or the one already on record) and later steps leave
    it alone; the end time was not on record before and is set, once, to
    the time of completion; the end time is not before the start time; and
    a second run for the same work order id never returns and leaves the
    end time as it is: once its steps are through it fails the
    duplicate-completion assertion. *)
Theorem work_order_times_set_once config sched steps pool q wid w w' :
  steps <> [] ->
  Forall (fun s => work_order_id s = wid) steps ->
  (forall i, 0 <= wait (sched i) /\
             Forall resumption_wf (resumptions (sched i))) ->
  (forall t, work_order_start_times w !! wid = Some t -> t <= now w) ->
  run_work_order config sched steps pool q w = (Returned tt, w') ->
  exists s e,
    work_order_start_times w' !! wid = Some s /\
    s = default (now w) (work_order_start_times w !! wid) /\
    work_order_end_times w !! wid = None /\
    work_order_end_times w' = <[wid := e]> (work_order_end_times w) /\
    e = now w' /\
    s <= e /\
    (forall config2 sched2 steps2 pool2 q2 o w'',
       steps2 <> [] ->
       Forall (fun s => work_order_id s = wid) steps2 ->
       run_work_order config2 sched2 steps2 pool2 q2 w' = (o, w'') ->
       work_order_end_times w'' = work_order_end_times w' /\
       (exists err, o = Raised err) /\
       (forall b w3,
          run_steps config2 sched2 pool2 0 steps2 q2 None w' =
            (Returned b, w3) ->
          o = Raised (AssertionError "Duplicate completion detected"))).
Proof.
  intros Hne Hall Hwf Hpast Hrun. unfold run_work_order in Hrun.
  apply bind_Returned in Hrun as (bound & w1 & Hsteps & Hend).
  destruct (run_steps_bound _ _ _ _ _ _ _ _ _ _ wid Hsteps Hall)
    as [[? _] | ->]; [done|].
  pose proof (run_steps_end_times _ _ _ _ _ _ _ _ _ _ Hsteps) as He1.
  pose proof (run_steps_clock _ _ _ _ _ _ _ Hwf _ _ _ Hsteps) as Hc1.
  unfold end_times_kept in He1. unfold clock_advances in Hc1.
  destruct steps as [|s0 steps]; [done|].
  pose proof (run_steps_records_start _ _ _ _ _ _ _ _ _ _ _ Hsteps) as Hs1.
  inversion Hall as [|? ? Hid _]; subst. clear Hne.
  simpl in Hend. destruct (work_order_end_times w1 !! work_order_id s0) eqn:Hw1;
    [discriminate|]. injection Hend as <-. simpl.
  exists (default (now w) (work_order_start_times w !! work_order_id s0)), (now w1).
  split; [done|]. split; [done|]. split; [congruence|].
  split; [by rewrite He1|]. split; [done|]. split.
  { destruct (work_order_start_times w !! work_order_id s0) as [t|] eqn:Ht;
      simpl; [|done]. specialize (Hpast t eq_refl). lra. }
  intros config2 sched2 steps2 pool2 q2 o w'' Hne2 Hall2 Hrun2.
  unfold run_work_order in Hrun2.
  apply bind_outcome in Hrun2 as [(b & w3 & Hsteps2 & Hend2)|(err & Hsteps2 & ->)].
  - destruct (run_steps_bound _ _ _ _ _ _ _ _ _ _ (work_order_id s0) Hsteps2 Hall2)
      as [[? _] | ->]; [done|].
    pose proof (run_steps_end_times _ _ _ _ _ _ _ _ _ _ Hsteps2) as He3.
    unfold end_times_kept in He3. simpl in He3, Hend2.
    rewrite He3 in Hend2. simpl in Hend2. rewrite lookup_insert_eq in Hend2.
    injection Hend2 as <- <-. split; [done|]. split; [eauto|].
    intros _ _ _. done.
  - pose proof (run_steps_end_times _ _ _ _ _ _ _ _ _ _ Hsteps2) as He3.
    split; [done|]. split; [eauto|].
    intros b w3 Hb. congruence.
Qed.

(** ** Identifiers over a run *)

Lemma activity_ids a : respects (G:=G) ids_kept (activity a).
Proof.
  destruct a as [c| |]; simpl.
  - destruct c; simpl.
    + refine (respects_bind _ _ _ _ _); [apply log_production_event_ids|].
      intros _. refine (respects_ret _ _).
    + apply log_downtime_event_ids.
    + apply log_quality_event_ids.
  - apply process_order_ids.
  - apply run_work_order_ids.
Qed.

Lemma activities_ids l : respects (G:=G) ids_kept (activities l).
Proof.
  induction l as [|a l IH]; simpl.
  - refine (respects_ret _ _).
  - refine (respects_bind _ _ _ _ _); [apply activity_ids | intros _; exact IH].
Qed.

(** C9.  In a run that starts with empty logs, whatever the order in which
    the machines log their events, alone or within executions of
    [process_order] and [run_work_order], and however the run ends: no two
    records of one kind share an identifier, on whichever machines they
    are; within every log the identifiers increase strictly; and every
    record created after a given moment carries a larger identifier than
    every record of its kind created before it.  The identifiers on record
    stay below the shared counters they were drawn from. *)
Theorem identifiers_unique_and_increasing w0 l1 l2 w1 o w2 :
  logs_empty w0 ->
  activities l1 w0 = (Returned tt, w1) ->
  activities l2 w1 = (o, w2) ->
  ids_unique w2 /\ logs_increasing w2 /\ created_later w1 w2 /\
  ids_fresh w2 /\ drawn_since w1 w2.
Proof.
  intros He H1 H2.
  destruct (logs_empty_ids w0 He) as (HF0 & HU0 & HI0).
  destruct (activities_ids _ _ _ _ H1 HF0 HU0 HI0) as (HF1 & HU1 & HI1 & _).
  destruct (activities_ids _ _ _ _ H2 HF1 HU1 HI1) as (HF2 & HU2 & HI2 & HD).
  do 2 (split; [done|]). split; [|by split].
  destruct HF1 as (F1 & F2 & F3 & F4).
  destruct HD as ([_ D1] & [_ D2] & [_ D3] & [_ D4]).
  rewrite Forall_forall in F1. rewrite Forall_forall in F2.
  rewrite Forall_forall in F3. rewrite Forall_forall in F4.
  unfold created_later. repeat split.
  - intros e2 He2. destruct (D1 e2 He2) as [?|Hle]; [by left|right].
    intros e1 He1. specialize (F1 e1 He1). lia.
  - intros e2 He2. destruct (D2 e2 He2) as [?|Hle]; [by left|right].
    intros e1 He1. specialize (F2 e1 He1). lia.
  - intros e2 He2. destruct (D3 e2 He2) as [?|Hle]; [by left|right].
    intros e1 He1. specialize (F3 e1 He1). lia.
  - intros e2 He2. destruct (D4 e2 He2) as [?|Hle]; [by left|right].
    intros e1 He1. specialize (F4 e1 He1). lia.
Qed.

End Facts.

(** ** [Plant.__init__] *)

(** C7.  Constructing a plant raises a [ValueError] exactly when the run
    mode is ['volume'] and the work-order count is missing, or the run mode
    is neither ['time'] nor ['volume'].  In ['time'] mode construction
    succeeds; a supplied count draws one [RuntimeWarning] and the plant's
    [num_work_orders] is [1] whatever was supplied. *)
Theorem Plant_init_validates (rs : RunSpecs) :
  ((exists msg ws, Plant_init rs = (Raised (ValueError msg), ws)) <->
   (run_mode rs = "volume" /\ count_missing (num_work_orders rs)) \/
   (run_mode rs <> "time" /\ run_mode rs <> "volume")) /\
  ((exists e ws, Plant_init rs = (Raised e, ws)) ->
   exists msg, Plant_init rs = (Raised (ValueError msg), [])) /\
  (run_mode rs = "time" ->
   exists p,
     plant_num_work_orders p = Some 1%Z /\ plant_run_specs p = rs /\
     ((~ count_missing (num_work_orders rs) /\
       Plant_init rs =
         (Returned p,
          [RuntimeWarning "num_work_orders ignored in time-driven mode"])) \/
      (count_missing (num_work_orders rs) /\
       Plant_init rs = (Returned p, [])))).
Proof.
  unfold Plant_init, count_missing.
  destruct (String.eqb_spec (run_mode rs) "volume") as [Hv|Hv];
    [|destruct (String.eqb_spec (run_mode rs) "time") as [Ht|Ht]].
  - destruct (num_work_orders rs) as [[|k|k]|]; simpl.
    all: split; [split|split].
    all: try (intros (? & ? & [=])).
    all: try (intros [[_ [[=]|[=]]]|[_ ?]]; done).
    all: try (intros _; eauto; fail).
    all: try (intros Ht; rewrite Hv in Ht; discriminate).
    all: try (intros (? & ? & ?); eauto; fail).
    all: eauto 10.
  - destruct (num_work_orders rs) as [[|k|k]|]; simpl.
    all: split; [split|split].
    all: try (intros (? & ? & [=])).
    all: try (intros [[? _]|[? _]]; done).
    all: intros _;
      exists {| plant_run_specs := rs; plant_num_work_orders := Some 1%Z;
                plant_num_machines := num_machines rs;
                plant_num_products := num_products rs;
                work_order_counter := 0 |}; simpl.
    all: split; [reflexivity|]; split; [reflexivity|].
    all: first [ right; split; [eauto|reflexivity]
               | left; split; [|reflexivity]; intros [[=]|[=]] ].
  - split; [split|split].
    + intros _. right. done.
    + intros _. eauto.
    + intros _. eauto.
    + intros Ht'. done.
Qed.

(** * The model at work *)

Import Scripted.

Local Open Scope Q_scope.

(** The scenario of a machine with a nominal cycle time of 1000, no noise,
    one failure 400 seconds in and a repair of 300 seconds: one downtime
    event with a usage of 400, and a production event with the status
    ["interrupted"] that ends at 1300. *)
Example interrupted_step_scenario :
  let w' := (step_run one_failure (world_with [] [-5 # 6])).2 in
  (step_run one_failure (world_with [] [-5 # 6])).1 = Returned tt /\
  map usage_duration (agg_downtime_logs w') = [400] /\
  map failure_end (agg_downtime_logs w') = [700] /\
  map event_status (agg_production_logs w') = ["interrupted"] /\
  map process_end (agg_production_logs w') = [1300].
Proof. vm_compute. repeat split. Qed.

(** A thousand repair cycles that leave time on the clock trip the ceiling:
    the step is logged as ["failed"], after 1000 downtime events. *)
Example ceiling_trips_scenario :
  let w' := (step_run failure_storm (fresh_world [])).2 in
  (step_run failure_storm (fresh_world [])).1 = Returned tt /\
  map event_status (agg_production_logs w') = ["failed"] /\
  length (agg_downtime_logs w') = 1000%nat.
Proof. vm_compute. repeat split. Qed.

(** ** Reproducibility *)

(** C1.  Two executions of the same step with the same configuration, the
    same machines, the same counters and the same injected [rngs] log
    different production events once the module-level generator of
    [Machine.py], which no seed reaches, is in a different state: the
    cycle time, and with it the end of processing, comes from that
    generator. *)
Theorem unseeded_cycle_time_differs :
  let w1 := fresh_world [1] in
  let w2 := fresh_world [-1] in
  rngs w1 = rngs w2 /\ Machines w1 = Machines w2 /\ ids w1 = ids w2 /\
  now w1 = now w2 /\
  (step_run [] w1).1 = Returned tt /\ (step_run [] w2).1 = Returned tt /\
  map actual_cycle_time (agg_production_logs (step_run [] w1).2) = [1100] /\
  map actual_cycle_time (agg_production_logs (step_run [] w2).2) = [900] /\
  map process_end (agg_production_logs (step_run [] w1).2) = [1100] /\
  map process_end (agg_production_logs (step_run [] w2).2) = [900] /\
  agg_production_logs (step_run [] w1).2 <>
    agg_production_logs (step_run [] w2).2.
Proof.
  cbv zeta. repeat (split; [vm_compute; reflexivity|]).
  intros Heq. vm_compute in Heq. discriminate Heq.
Qed.

(** ** The theorems at concrete inputs *)


Lemma step_yield_formula_witness :
  (step_run one_failure (world_with [] [-5 # 6])).1 = Returned tt /\
  exists st qe interrupt_count,
    ((~ ceiling_tripped st /\ interrupt_count = 1%Z) \/
     (ceiling_tripped st /\ interrupt_count = (-1)%Z)) /\
    units_approved qe =
      (binomial (quality seeded_rngs) 100
         (py_max (85 # 100)
            (float_pow (9 # 10) (1 / inject_Z 1) -
             inject_Z interrupt_count * (2 # 100)))).1.
Proof.
  split; [vm_compute; reflexivity|].
  destruct (step_yield_formula 0 7 one_failure "WO-251" 1 1 100 200
              (9 # 10) 100 process_noise repair_behavior quality_config
              (world_with [] [-5 # 6])
              (step_run one_failure (world_with [] [-5 # 6])).2)
    as (m & m' & act & w1 & st & w2 & dl & qe & ic & Hm & Hm' & _ & _ & Hdl
        & _ & Hic & Hgood).
  { vm_compute. reflexivity. }
  exists st, qe, ic. split; [|exact Hgood].
  destruct Hic as [[Hnt ->]|[Ht ->]]; [left|right; by split].
  split; [done|].
  vm_compute in Hm. injection Hm as <-.
  vm_compute in Hm'. injection Hm' as <-.
  destruct dl as [|d [|d' dl]]; [discriminate Hdl|reflexivity|].
  simpl in Hdl. discriminate Hdl.
Defined.

Lemma process_order_logs_one_event_each_witness :
  (step_run one_failure (world_with [] [-5 # 6])).1 = Returned tt /\
  exists pe st,
    (event_status pe = "completed" /\ counter st = 0%Z) \/
    (event_status pe = "interrupted" /\ (0 < counter st)%Z) \/
    (event_status pe = "failed" /\ ceiling_tripped st).
Proof.
  split; [vm_compute; reflexivity|].
  destruct (process_order_logs_one_event_each 0 7 one_failure "WO-251" 1 1
              100 200 (9 # 10) 100 process_noise repair_behavior
              quality_config (world_with [] [-5 # 6])
              (step_run one_failure (world_with [] [-5 # 6])).2)
    as (m & m' & act & w1 & st & w2 & dl & pe & qe & _ & _ & _ & _ & _ & _
        & _ & _ & Hst).
  { vm_compute. reflexivity. }
  exists pe, st.
  destruct Hst as [(? & ? & _)|[(? & ? & _)|(? & _ & ?)]]; tauto.
Defined.

Lemma process_order_restores_idle_witness :
  (step_run one_failure (world_with [] [-5 # 6])).1 = Returned tt /\
  exists m',
    Machines (step_run one_failure (world_with [] [-5 # 6])).2 !! 0%nat =
      Some m' /\
    is_busy m' = false /\ current_process m' = None /\
    current_work_order m' = None /\
    ~ busy_in (step_run one_failure (world_with [] [-5 # 6])).2 0.
Proof.
  split; [vm_compute; reflexivity|].
  apply (process_order_restores_idle 0 7 one_failure "WO-251" 1 1 100 200
           (9 # 10) 100 process_noise repair_behavior quality_config
           (world_with [] [-5 # 6])).
  vm_compute. reflexivity.
Defined.

Lemma exact_sub_never_above : float_sub_never_above.
Proof. intros x y Hy. unfold float_sub, exact_sub. lra. Qed.



Lemma select_machine_first_idle_witness :
  machines etchers = [] ++ 0%nat :: [1%nat] /\
  exists w',
    select_machine etchers (fresh_world []) = (Returned 0%nat, w') /\
    Machines w' !! 0%nat =
      Some (set_is_busy true (Machine_init 11 "Etcher" 1000 None)) /\
    (forall r', r' <> 0%nat ->
       Machines w' !! r' = Machines (fresh_world []) !! r').
Proof.
  split; [reflexivity|].
  destruct (select_machine_first_idle etchers (fresh_world [])) as (Hidle & _).
  destruct (Hidle [] 0%nat [1%nat] (Machine_init 11 "Etcher" 1000 None))
    as (w' & Hsel & Hself & Hothers & _).
  - reflexivity.
  - constructor.
  - reflexivity.
  - reflexivity.
  - exists w'. split; [exact Hsel|]. split; [exact Hself|exact Hothers].
Defined.

Lemma Plant_init_validates_witness :
  run_mode time_run_specs = "time" /\
  exists p,
    plant_num_work_orders p = Some 1%Z /\
    Plant_init time_run_specs =
      (Returned p,
       [RuntimeWarning "num_work_orders ignored in time-driven mode"]).
Proof.
  split; [reflexivity|].
  destruct (Plant_init_validates time_run_specs) as (_ & _ & Htime).
  destruct (Htime eq_refl) as (p & Hn & _ & [[_ Hp]|[Hmiss _]]).
  - exists p. split; [exact Hn|exact Hp].
  - exfalso. destruct Hmiss as [Hm|Hm]; vm_compute in Hm; discriminate Hm.
Defined.

Lemma work_order_times_set_once_witness :
  one_step_route <> [] /\
  (work_order_run (fresh_world [])).1 = Returned tt /\
  exists s e,
    work_order_start_times (work_order_run (fresh_world [])).2 !! "WO-251" =
      Some s /\
    work_order_end_times (work_order_run (fresh_world [])).2 =
      <["WO-251" := e]> (work_order_end_times (fresh_world [])) /\
    s <= e /\
    exists err, (work_order_run (work_order_run (fresh_world [])).2).1 =
                  Raised err.
Proof.
  assert (one_step_route <> []) as Hne by discriminate.
  split; [exact Hne|]. split; [vm_compute; reflexivity|].
  destruct (work_order_times_set_once config calm one_step_route [etchers] 100
              "WO-251" (fresh_world []) (work_order_run (fresh_world [])).2)
    as (s & e & Hs & _ & _ & He & _ & Hle & Hagain).
  - exact Hne.
  - repeat constructor.
  - intros i. split; [vm_compute; discriminate|constructor].
  - intros t Ht. vm_compute in Ht. discriminate Ht.
  - vm_compute. reflexivity.
  - exists s, e. split; [exact Hs|]. split; [exact He|]. split; [exact Hle|].
    destruct (work_order_run (work_order_run (fresh_world [])).2)
      as [o w''] eqn:Hrun.
    destruct (Hagain config calm one_step_route [etchers] 100%Z o w'')
      as (_ & Herr & _).
    + exact Hne.
    + repeat constructor.
    + exact Hrun.
    + exact Herr.
Defined.

Lemma identifiers_unique_and_increasing_witness :
  logs_empty (fresh_world []) /\
  ids_unique
    (activities later_activities
       (activities first_activities (fresh_world [])).2).2 /\
  created_later (activities first_activities (fresh_world [])).2
    (activities later_activities
       (activities first_activities (fresh_world [])).2).2.
Proof.
  assert (logs_empty (fresh_world [])) as Hempty by (repeat constructor).
  split; [exact Hempty|].
  destruct (identifiers_unique_and_increasing (fresh_world [])
              first_activities later_activities
              (activities first_activities (fresh_world [])).2
              (activities later_activities
                 (activities first_activities (fresh_world [])).2).1
              (activities later_activities
                 (activities first_activities (fresh_world [])).2).2)
    as (Hu & _ & Hc & _).
  - exact Hempty.
  - vm_compute. reflexivity.
  - vm_compute. reflexivity.
  - split; [exact Hu|exact Hc].
Defined.

